(** * Lümn Note backend: the document layer of [main.py] and [schemas.py]

    A shallow embedding of the request handlers of [src/main.py] and of the
    five Pydantic models of [src/schemas.py], over a model of the document
    store adapter ([database.py]) and of the fragment of the store's regular
    expressions that the month query can be given a meaning in. *)

From Stdlib Require Import ZArith NArith String Ascii List Bool Lia.
From Stdlib Require Import SpecFloat.
From stdpp Require Import gmap strings list fin_maps.

Set Warnings "-register-all".
Local Open Scope string_scope.

(** ** Python values *)

(** The values that travel through the handlers: what [json.loads] produces
    for a request body, what [model_dump] produces for a validated model, and
    the store's own [ObjectId] (a 12 byte number). A Python [dict] with string
    keys is a [gmap string pyval]; a [float] is an IEEE binary64 value. *)
Inductive pyval :=
| PNone
| PBool (b : bool)
| PInt (n : Z)
| PFloat (f : spec_float)
| PStr (s : string)
| PList (l : list pyval)
| PDict (d : gmap string pyval)
| PObjectId (o : N).

Abbreviation doc := (gmap string pyval).

(** [float(n)] for a Python [int]: round to nearest even in binary64. *)
Definition float_of_Z (n : Z) : spec_float := binary_normalize 53 1024 n 0 false.

Definition is_finite (f : spec_float) : bool :=
  match f with
  | S754_zero _ | S754_finite _ _ _ => true
  | _ => false
  end.

(** ** Outcomes *)

Inductive violation := Missing | WrongType | OutOfRange.
Inductive loc_item := Key (k : string) | Index (i : nat).
Definition verr : Type := list loc_item * violation.

(** What a handler can raise. [Unsupported] is not an exception of the
    program: it marks an input that this development gives no meaning to (a
    regular expression operator outside the fragment of [Regex], [str] of a
    container). *)
Inductive error :=
| ValidationError (errs : list verr)
| HTTPException (status_code : Z) (detail : string)
| KeyError (key : string)
| Unsupported.

Inductive result (A : Type) :=
| Ok (a : A)
| Raise (e : error).
Arguments Ok {A} a.
Arguments Raise {A} e.

#[global] Instance result_ret : MRet result := fun A a => Ok a.
#[global] Instance result_bind : MBind result := fun A B f m =>
  match m with
  | Ok a => f a
  | Raise e => Raise e
  end.
#[global] Instance result_fmap : FMap result := fun A B f m =>
  match m with
  | Ok a => Ok (f a)
  | Raise e => Raise e
  end.

(** Python truthiness of an [Optional[str]] query parameter: [None] and the
    empty string are falsy. *)
Definition truthy (o : option string) : bool :=
  match o with
  | Some s => negb (String.eqb s "")
  | None => false
  end.

(** ** [str(ObjectId)]: 24 lower-case hexadecimal digits *)

Definition hex_digit (n : N) : ascii :=
  match n with
  | 0 => "0" | 1 => "1" | 2 => "2" | 3 => "3" | 4 => "4" | 5 => "5"
  | 6 => "6" | 7 => "7" | 8 => "8" | 9 => "9" | 10 => "a" | 11 => "b"
  | 12 => "c" | 13 => "d" | 14 => "e" | _ => "f"
  end%N%char.

Fixpoint hex_of (digits : nat) (n : N) (acc : string) : string :=
  match digits with
  | O => acc
  | S k => hex_of k (N.div n 16) (String (hex_digit (N.modulo n 16)) acc)
  end.

Definition str_oid (o : N) : string := hex_of 24 o "".

(** [str(v)] for the values whose [str] is modelled. *)
Definition py_str (v : pyval) : result string :=
  match v with
  | PObjectId o => Ok (str_oid o)
  | PStr s => Ok s
  | PNone => Ok "None"
  | PBool true => Ok "True"
  | PBool false => Ok "False"
  | PInt _ | PFloat _ | PList _ | PDict _ => Raise Unsupported
  end.

(** Does a value contain an [ObjectId] anywhere? *)
Fixpoint has_oid (v : pyval) : bool :=
  match v with
  | PObjectId _ => true
  | PList l => existsb has_oid l
  | PDict d => map_fold (fun _ v' acc => has_oid v' || acc) false d
  | _ => false
  end.

(** ** The fragment of the store's regular expressions *)

(** The month query sends [{"$regex": f"^{month}"}] to the store, which
    evaluates it with PCRE. The fragment given a meaning here: an optional
    leading [^], literal characters, [.] (one character other than a line
    feed) and a backslash before a metacharacter. [compile] answers [None]
    on every other operator. *)
Module Regex.

Inductive atom := Lit (c : ascii) | Any.

Record t := { anchored : bool; atoms : list atom }.

Definition metachars : list ascii :=
  list_ascii_of_string "\^$.|?*+()[]{}".

Definition is_meta (c : ascii) : bool :=
  existsb (Ascii.eqb c) metachars || Ascii.eqb c zero.

Fixpoint parse (p : string) : option (list atom) :=
  match p with
  | EmptyString => Some []
  | String c rest =>
      if Ascii.eqb c "." then cons Any <$> parse rest
      else if Ascii.eqb c "\" then
        match rest with
        | String c' rest' =>
            if existsb (Ascii.eqb c') metachars
            then cons (Lit c') <$> parse rest'
            else None
        | EmptyString => None
        end
      else if is_meta c then None
      else cons (Lit c) <$> parse rest
  end.

Definition compile (p : string) : option t :=
  match p with
  | String "^" rest => Build_t true <$> parse rest
  | _ => Build_t false <$> parse p
  end.

(** The subject is UTF-8: [.] consumes one code point. *)
Definition continuation_bytes (c : ascii) : nat :=
  let n := N_of_ascii c in
  if (n <? 128)%N then 0
  else if (n <? 224)%N then 1
  else if (n <? 240)%N then 2
  else 3.

Fixpoint drop (n : nat) (s : string) : string :=
  match n, s with
  | S k, String _ s' => drop k s'
  | _, _ => s
  end.

Fixpoint match_here (r : list atom) (s : string) : bool :=
  match r with
  | [] => true
  | Lit c :: r' =>
      match s with
      | String c' s' => Ascii.eqb c c' && match_here r' s'
      | EmptyString => false
      end
  | Any :: r' =>
      match s with
      | String c' s' =>
          negb (Ascii.eqb c' "010") && match_here r' (drop (continuation_bytes c') s')
      | EmptyString => false
      end
  end.

Fixpoint match_anywhere (r : list atom) (s : string) : bool :=
  match_here r s ||
  match s with
  | String _ s' => match_anywhere r s'
  | EmptyString => false
  end.

Definition search (r : t) (s : string) : bool :=
  if anchored r then match_here (atoms r) s else match_anywhere (atoms r) s.

End Regex.

(** ** Validation: the Pydantic models of [schemas.py] *)

(** The result of validating one value. [Invalid] lists every violation with
    its location. *)
Inductive checked (A : Type) :=
| Valid (a : A)
| Invalid (errs : list verr).
Arguments Valid {A} a.
Arguments Invalid {A} errs.

(** Pydantic validates in lax mode: a value that is not of the annotated
    numeric type may still be converted (a numeric string, a [bool], a float
    without fractional part for an [int]). What these conversions answer is
    not in the sources; it is taken as a parameter: [lax_int v] and
    [lax_float v] are the converted value, or [None] where Pydantic reports
    a violation. *)
Class LaxMode := {
  lax_int : pyval -> option Z;
  lax_float : pyval -> option spec_float
}.

(** Strict mode converts nothing. *)
Definition strict_mode : LaxMode :=
  {| lax_int := fun _ => None; lax_float := fun _ => None |}.

Definition ap {A B : Type} (f : checked (A -> B)) (x : checked A) : checked B :=
  match f, x with
  | Valid g, Valid a => Valid (g a)
  | Valid _, Invalid e => Invalid e
  | Invalid e, Valid _ => Invalid e
  | Invalid e1, Invalid e2 => Invalid (e1 ++ e2)
  end.
Notation "f <*> x" := (ap f x) (at level 61, left associativity).

Definition at_loc {A : Type} (i : loc_item) (c : checked A) : checked A :=
  match c with
  | Invalid errs => Invalid (map (fun e : verr => (i :: fst e, snd e)) errs)
  | _ => c
  end.

Definition to_result {A : Type} (c : checked A) : result A :=
  match c with
  | Valid a => Ok a
  | Invalid errs => Raise (ValidationError errs)
  end.

(** The annotation [str]: only a string is accepted. *)
Definition as_str (v : pyval) : checked string :=
  match v with
  | PStr s => Valid s
  | _ => Invalid [([], WrongType)]
  end.

Definition converted {A : Type} (o : option A) : checked A :=
  match o with
  | Some a => Valid a
  | None => Invalid [([], WrongType)]
  end.

(** The annotation [int]: an int as it is, a [bool], a float or a string as
    lax mode converts it. *)
Definition as_int `{L : LaxMode} (v : pyval) : checked Z :=
  match v with
  | PInt n => Valid n
  | PBool _ | PFloat _ | PStr _ => converted (lax_int v)
  | _ => Invalid [([], WrongType)]
  end.

(** The annotation [float]: a float as it is, an int converted to the
    nearest float, a [bool], a string or an int beyond the floats as lax
    mode converts it. *)
Definition as_float `{L : LaxMode} (v : pyval) : checked spec_float :=
  match v with
  | PFloat f => Valid f
  | PInt n =>
      if is_finite (float_of_Z n) then Valid (float_of_Z n)
      else converted (lax_float v)
  | PBool _ | PStr _ => converted (lax_float v)
  | _ => Invalid [([], WrongType)]
  end.

(** The annotation [Optional[X]]. *)
Definition as_optional {A : Type} (conv : pyval -> checked A) (v : pyval)
  : checked (option A) :=
  match v with
  | PNone => Valid None
  | _ => Valid (@Some A) <*> conv v
  end.

(** The constraints [ge=lo] and [le=hi] of a [Field]. *)
Definition constrained (ge le : Z) (c : checked Z) : checked Z :=
  match c with
  | Valid n =>
      if negb (ge <=? n)%Z then Invalid [([], OutOfRange)]
      else if negb (n <=? le)%Z then Invalid [([], OutOfRange)]
      else Valid n
  | _ => c
  end.

(** A field declared [Field(...)]: required. *)
Definition required {A : Type} (d : doc) (name : string)
    (conv : pyval -> checked A) : checked A :=
  match d !! name with
  | Some v => at_loc (Key name) (conv v)
  | None => Invalid [([Key name], Missing)]
  end.

(** A field declared with a default: the default is taken as it is (it is
    not validated) when the field is absent. *)
Definition defaulted {A : Type} (d : doc) (name : string)
    (conv : pyval -> checked A) (default : A) : checked A :=
  match d !! name with
  | Some v => at_loc (Key name) (conv v)
  | None => Valid default
  end.

(** A Python number: what a field annotated [float] can hold when its default
    is written as an [int]. *)
Inductive pynum :=
| NInt (n : Z)
| NFloat (f : spec_float).

Definition dump_num (n : pynum) : pyval :=
  match n with
  | NInt z => PInt z
  | NFloat f => PFloat f
  end.

Definition dump_optional {A : Type} (f : A -> pyval) (o : option A) : pyval :=
  match o with
  | Some a => f a
  | None => PNone
  end.

Module Journal.
Record t := {
  title : string;
  cover_style : string;
  paper_style : string;
  owner : option string
}.

Definition validate (body : pyval) : checked t :=
  match body with
  | PDict d =>
      Valid Build_t
        <*> required d "title" as_str
        <*> defaulted d "cover_style" as_str "pastel-pink"
        <*> defaulted d "paper_style" as_str "dotted"
        <*> defaulted d "owner" (as_optional as_str) None
  | _ => Invalid [([], WrongType)]
  end.

Definition model_dump (j : t) : doc :=
  {[ "title" := PStr (title j);
     "cover_style" := PStr (cover_style j);
     "paper_style" := PStr (paper_style j);
     "owner" := dump_optional PStr (owner j) ]}.
End Journal.

Module JournalPage.
Record t := {
  journal_id : string;
  date : string;
  content : string;
  font : string;
  font_size : Z;
  color : string;
  alignment : string;
  background : option string
}.

Definition validate `{L : LaxMode} (body : pyval) : checked t :=
  match body with
  | PDict d =>
      Valid Build_t
        <*> required d "journal_id" as_str
        <*> required d "date" as_str
        <*> defaulted d "content" as_str ""
        <*> defaulted d "font" as_str "Inter"
        <*> defaulted d "font_size" (fun v => constrained 8 64 (as_int v)) 16%Z
        <*> defaulted d "color" as_str "#1f2937"
        <*> defaulted d "alignment" as_str "left"
        <*> defaulted d "background" (as_optional as_str) None
  | _ => Invalid [([], WrongType)]
  end.

Definition model_dump (p : t) : doc :=
  {[ "journal_id" := PStr (journal_id p);
     "date" := PStr (date p);
     "content" := PStr (content p);
     "font" := PStr (font p);
     "font_size" := PInt (font_size p);
     "color" := PStr (color p);
     "alignment" := PStr (alignment p);
     "background" := dump_optional PStr (background p) ]}.
End JournalPage.

Module CalendarEvent.
Record t := {
  date : string;
  title : string;
  highlight : option string;
  emoji : option string
}.

Definition validate (body : pyval) : checked t :=
  match body with
  | PDict d =>
      Valid Build_t
        <*> required d "date" as_str
        <*> required d "title" as_str
        <*> defaulted d "highlight" (as_optional as_str) None
        <*> defaulted d "emoji" (as_optional as_str) None
  | _ => Invalid [([], WrongType)]
  end.

Definition model_dump (e : t) : doc :=
  {[ "date" := PStr (date e);
     "title" := PStr (title e);
     "highlight" := dump_optional PStr (highlight e);
     "emoji" := dump_optional PStr (emoji e) ]}.
End CalendarEvent.

Module Sticker.
(** [x] and [y] are declared [float] with the default [0], an [int] that
    Pydantic stores as it is: these two fields hold a Python number. *)
Record t := {
  date : string;
  category : string;
  label : string;
  x : pynum;
  y : pynum;
  size : spec_float
}.

Definition validate `{L : LaxMode} (body : pyval) : checked t :=
  match body with
  | PDict d =>
      Valid Build_t
        <*> required d "date" as_str
        <*> defaulted d "category" as_str "decor"
        <*> required d "label" as_str
        <*> defaulted d "x" (fun v => Valid NFloat <*> as_float v) (NInt 0)
        <*> defaulted d "y" (fun v => Valid NFloat <*> as_float v) (NInt 0)
        <*> defaulted d "size" as_float (float_of_Z 1)
  | _ => Invalid [([], WrongType)]
  end.

Definition model_dump (s : t) : doc :=
  {[ "date" := PStr (date s);
     "category" := PStr (category s);
     "label" := PStr (label s);
     "x" := dump_num (x s);
     "y" := dump_num (y s);
     "size" := PFloat (size s) ]}.
End Sticker.

Module StrokePoint.
Record t := {
  x : spec_float;
  y : spec_float;
  p : option spec_float;
  t_ : option spec_float
}.

Definition validate `{L : LaxMode} (body : pyval) : checked t :=
  match body with
  | PDict d =>
      Valid Build_t
        <*> required d "x" as_float
        <*> required d "y" as_float
        <*> defaulted d "p" (as_optional as_float) None
        <*> defaulted d "t" (as_optional as_float) None
  | _ => Invalid [([], WrongType)]
  end.

Definition model_dump (s : t) : doc :=
  {[ "x" := PFloat (x s);
     "y" := PFloat (y s);
     "p" := dump_optional PFloat (p s);
     "t" := dump_optional PFloat (t_ s) ]}.
End StrokePoint.

(** The annotation [List[StrokePoint]]: every element is validated, at its
    index. *)
Fixpoint validate_points `{L : LaxMode} (i : nat) (l : list pyval)
  : checked (list StrokePoint.t) :=
  match l with
  | [] => Valid []
  | v :: l' =>
      Valid cons <*> at_loc (Index i) (StrokePoint.validate v)
                 <*> validate_points (S i) l'
  end.

Definition as_points `{L : LaxMode} (v : pyval) : checked (list StrokePoint.t) :=
  match v with
  | PList l => validate_points 0 l
  | _ => Invalid [([], WrongType)]
  end.

Module Drawing.
Record t := {
  date : string;
  tool : string;
  color : string;
  size : spec_float;
  points : list StrokePoint.t
}.

Definition validate `{L : LaxMode} (body : pyval) : checked t :=
  match body with
  | PDict d =>
      Valid Build_t
        <*> required d "date" as_str
        <*> defaulted d "tool" as_str "pen"
        <*> defaulted d "color" as_str "#111827"
        <*> defaulted d "size" as_float (float_of_Z 2)
        <*> defaulted d "points" as_points []
  | _ => Invalid [([], WrongType)]
  end.

Definition model_dump (g : t) : doc :=
  {[ "date" := PStr (date g);
     "tool" := PStr (tool g);
     "color" := PStr (color g);
     "size" := PFloat (size g);
     "points" := PList (map (fun q => PDict (StrokePoint.model_dump q)) (points g)) ]}.
End Drawing.

(** The interface [BaseModel] as far as the store adapter uses it. *)
Class BaseModel (T : Type) := model_dump : T -> doc.
#[global] Instance Journal_model : BaseModel Journal.t := Journal.model_dump.
#[global] Instance JournalPage_model : BaseModel JournalPage.t := JournalPage.model_dump.
#[global] Instance CalendarEvent_model : BaseModel CalendarEvent.t := CalendarEvent.model_dump.
#[global] Instance Sticker_model : BaseModel Sticker.t := Sticker.model_dump.
#[global] Instance Drawing_model : BaseModel Drawing.t := Drawing.model_dump.

(** ** The document store adapter ([database.py]) *)

Module Database.

(** The backing store, connected and working: the collections in storage
    (insertion) order and the next identifier the store will assign. *)
Record store := {
  next_oid : N;
  collections : gmap string (list doc)
}.

Definition empty : store := {| next_oid := 0; collections := ∅ |}.

Definition collection (st : store) (name : string) : list doc :=
  default [] (collections st !! name).

(** A filter maps a field name to an exact-match scalar or to a pattern,
    [{"$regex": pattern}]. It is written as the list of the items of the
    Python dict literal. *)
Inductive cond :=
| Exact (s : string)
| RegexCond (pattern : string).

Inductive compiled :=
| CExact (s : string)
| CRegex (r : Regex.t).

Definition compile_cond (c : cond) : result compiled :=
  match c with
  | Exact s => Ok (CExact s)
  | RegexCond p =>
      match Regex.compile p with
      | Some r => Ok (CRegex r)
      | None => Raise Unsupported
      end
  end.

Definition compile_item (item : string * cond) : result (string * compiled) :=
  c ← compile_cond (snd item); Ok (fst item, c).

Definition holds (c : compiled) (v : option pyval) : bool :=
  match c, v with
  | CExact s, Some (PStr s') => String.eqb s s'
  | CRegex r, Some (PStr s') => Regex.search r s'
  | _, _ => false
  end.

Definition satisfies (cf : list (string * compiled)) (d : doc) : bool :=
  forallb (fun item : string * compiled => holds (snd item) (d !! fst item)) cf.

Definition cap {A : Type} (limit : option nat) (l : list A) : list A :=
  match limit with
  | Some n => take n l
  | None => l
  end.

(** Modelled from the spec: [create_document] of [database.py], which is
    not among the sources. Spec 4.2: it serializes the validated record to
    a storage document, inserts it into the named collection and returns
    the newly assigned identifier as an opaque string. *)
Definition create_document {T : Type} `{BaseModel T}
    (collection_name : string) (data : T) (st : store) : string * store :=
  let oid := next_oid st in
  let document := <["_id" := PObjectId oid]> (model_dump data) in
  (str_oid oid,
   {| next_oid := N.succ oid;
      collections :=
        <[collection_name := (collection st collection_name ++ [document])%list]>
          (collections st) |}).

(** Modelled from the spec: [get_documents] of [database.py], which is not
    among the sources. Spec 4.2: it executes the filter against the named
    collection, optionally capped at [limit] results, and returns the
    matching documents in storage order. The documents still carry the
    store's [_id]: the handlers of [main.py] rename it. *)
Definition get_documents (collection_name : string)
    (filter_dict : list (string * cond)) (limit : option nat) (st : store)
  : result (list doc) :=
  cf ← mapM compile_item filter_dict;
  Ok (cap limit (List.filter (satisfies cf) (collection st collection_name))).

End Database.

(** ** The handlers of [main.py] *)

Module Main.
Import Database.

(** [it["id"] = str(it.pop("_id"))] *)
Definition expose_id (it : doc) : result doc :=
  match it !! "_id" with
  | Some v => s ← py_str v; Ok (<["id" := PStr s]> (delete "_id" it))
  | None => Raise (KeyError "_id")
  end.

(** A handler with a model parameter: the body is validated first, and the
    handler runs only on a valid body; the violations of a body are located
    under [body]. *)
Definition with_body {T : Type} (validate : pyval -> checked T)
    (handler : T -> store -> doc * store) (body : pyval) (st : store)
  : result doc * store :=
  match to_result (at_loc (Key "body") (validate body)) with
  | Ok m => let '(r, st') := handler m st in (Ok r, st')
  | Raise e => (Raise e, st)
  end.

(** *** Journals *)

Definition create_journal (journal : Journal.t) (st : store) : doc * store :=
  let '(inserted_id, st') := create_document "journal" journal st in
  ({[ "id" := PStr inserted_id ]}, st').

(** [limit: int = Query(50, ge=1, le=200)] *)
Definition list_journals (limit : option Z) (st : store) : result (list doc) :=
  let limit := default 50%Z limit in
  if negb ((1 <=? limit)%Z && (limit <=? 200)%Z)
  then Raise (ValidationError [([Key "query"; Key "limit"], OutOfRange)])
  else
    items ← get_documents "journal" [] (Some (Z.to_nat limit)) st;
    mapM expose_id items.

(** *** Journal pages *)

Definition create_page (page : JournalPage.t) (st : store) : doc * store :=
  let '(inserted_id, st') := create_document "journalpage" page st in
  ({[ "id" := PStr inserted_id ]}, st').

Definition get_page (journal_id date : string) (st : store) : result doc :=
  docs ← get_documents "journalpage"
           [("journal_id", Exact journal_id); ("date", Exact date)] (Some 1) st;
  match docs with
  | [] => Raise (HTTPException 404 "Page not found")
  | doc0 :: _ => expose_id doc0
  end.

(** *** Calendar events, stickers, drawings *)

Definition create_event (event : CalendarEvent.t) (st : store) : doc * store :=
  let '(inserted_id, st') := create_document "calendarevent" event st in
  ({[ "id" := PStr inserted_id ]}, st').

Definition list_events (date month : option string) (st : store)
  : result (list doc) :=
  let filt :=
    if truthy date then [("date", Exact (default "" date))]
    else if truthy month then [("date", RegexCond ("^" ++ default "" month))]
    else [] in
  items ← get_documents "calendarevent" filt None st;
  mapM expose_id items.

Definition create_sticker (sticker : Sticker.t) (st : store) : doc * store :=
  let '(inserted_id, st') := create_document "sticker" sticker st in
  ({[ "id" := PStr inserted_id ]}, st').

Definition list_stickers (date month : option string) (st : store)
  : result (list doc) :=
  let filt :=
    if truthy date then [("date", Exact (default "" date))]
    else if truthy month then [("date", RegexCond ("^" ++ default "" month))]
    else [] in
  items ← get_documents "sticker" filt None st;
  mapM expose_id items.

Definition create_drawing (drawing : Drawing.t) (st : store) : doc * store :=
  let '(inserted_id, st') := create_document "drawing" drawing st in
  ({[ "id" := PStr inserted_id ]}, st').

Definition list_drawings (date month : option string) (st : store)
  : result (list doc) :=
  let filt :=
    if truthy date then [("date", Exact (default "" date))]
    else if truthy month then [("date", RegexCond ("^" ++ default "" month))]
    else [] in
  items ← get_documents "drawing" filt None st;
  mapM expose_id items.

(** *** Day aggregate *)

Definition get_day (date : string) (journal_id : option string) (st : store)
  : result doc :=
  let resp : doc := {[ "date" := PStr date ]} in
  page_docs ← get_documents "journalpage"
                (if truthy journal_id
                 then [("journal_id", Exact (default "" journal_id)); ("date", Exact date)]
                 else [("date", Exact date)])
                (Some 1) st;
  resp ← match page_docs with
         | p :: _ => p ← expose_id p; Ok (<["page" := PDict p]> resp)
         | [] => Ok (<["page" := PNone]> resp)
         end;
  evts ← get_documents "calendarevent" [("date", Exact date)] None st;
  evts ← mapM expose_id evts;
  let resp := <["events" := PList (PDict <$> evts)]> resp in
  stk ← get_documents "sticker" [("date", Exact date)] None st;
  stk ← mapM expose_id stk;
  let resp := <["stickers" := PList (PDict <$> stk)]> resp in
  dr ← get_documents "drawing" [("date", Exact date)] None st;
  dr ← mapM expose_id dr;
  let resp := <["drawings" := PList (PDict <$> dr)]> resp in
  Ok resp.

(** The POST routes: validation of the body, then the handler. *)
Definition post_journals := with_body Journal.validate create_journal.
Definition post_pages `{L : LaxMode} :=
  with_body JournalPage.validate create_page.
Definition post_events := with_body CalendarEvent.validate create_event.
Definition post_stickers `{L : LaxMode} :=
  with_body Sticker.validate create_sticker.
Definition post_drawings `{L : LaxMode} :=
  with_body Drawing.validate create_drawing.

End Main.

(** ** The health check of [main.py] *)

Module Health.

(** What [db.list_collection_names()] does: the names, or the text of the
    exception it raises. *)
Inductive listing :=
| Names (names : list string)
| Fails (message : string).

(** The global [db] of [database.py] as far as [test_database] looks at it:
    its [name] attribute, if it has one, and its collection listing. *)
Record database := {
  name : option string;
  list_collection_names : listing
}.

(** The slice [s[:n]] of a Python string held as UTF-8: its first [n] code
    points. *)
Fixpoint py_take (n : nat) (s : string) : string :=
  match n, s with
  | S k, String c rest =>
      let m := Regex.continuation_bytes c in
      String c (substring 0 m rest ++ py_take k (Regex.drop m rest))
  | _, _ => EmptyString
  end.

(** [test_database], given the global [db] and the value of the environment
    variable [DATABASE_URL]. The response dict is updated step by step, so
    what was written before the listing fails stays in the answer. (The
    outer [except] of the source has nothing to catch here: none of the
    modelled steps before the listing raises.) *)
Definition test_database (db : option database) (database_url : option string)
  : doc :=
  let response : doc :=
    {[ "backend" := PStr "✅ Running";
       "database" := PStr "❌ Not Available";
       "database_url" := PNone;
       "database_name" := PNone;
       "connection_status" := PStr "Not Connected";
       "collections" := PList [] ]} in
  match db with
  | None => response
  | Some db =>
      let response := <["database" := PStr "✅ Available"]> response in
      let response :=
        <["database_url" := PStr (if truthy database_url then "✅ Set" else "❌ Not Set")]>
          response in
      let response :=
        <["database_name" := PStr (default "✅ Connected" (name db))]> response in
      let response := <["connection_status" := PStr "Connected"]> response in
      match list_collection_names db with
      | Names names =>
          <["database" := PStr "✅ Connected & Working"]>
            (<["collections" := PList (PStr <$> take 10 names)]> response)
      | Fails message =>
          <["database" := PStr ("⚠️ Connected but Error: " ++ py_take 50 message)]>
            response
      end
  end.

End Health.

(** ** Notions used to state the properties *)

Import Database Main.
Local Open Scope list_scope.

(** The string held by a field, when the field holds a string. *)
Definition str_field (k : string) (d : doc) : option string :=
  match d !! k with
  | Some (PStr s) => Some s
  | _ => None
  end.

(** A document as the store holds it: [_id] is an [ObjectId], and no other
    part of the document is one. *)
Definition stored_ok (d : doc) : bool :=
  match d !! "_id" with
  | Some (PObjectId _) => negb (has_oid (PDict (delete "_id" d)))
  | _ => false
  end.

(** The collections of the program (the keys of [models] in [get_schema]). *)
Definition collection_names : list string :=
  ["journal"; "journalpage"; "calendarevent"; "sticker"; "drawing"].

Definition well_stored (st : store) : bool :=
  forallb (fun c => forallb stored_ok (collection st c)) collection_names.

(** The external form of a stored document: [_id] removed, its string form
    under [id]. *)
Definition external (d : doc) : doc :=
  match d !! "_id" with
  | Some (PObjectId o) => <["id" := PStr (str_oid o)]> (delete "_id" d)
  | _ => d
  end.

(** A response record that shows no trace of the store's identifier. *)
Definition clean (d : doc) : Prop :=
  d !! "_id" = None /\ (exists s, d !! "id" = Some (PStr s)) /\ has_oid (PDict d) = false.

(** A month string without regular expression metacharacters. *)
Definition plain (m : string) : bool :=
  forallb (fun c => negb (Regex.is_meta c)) (list_ascii_of_string m).

(** The three listings by date or month, with their collections. *)
Definition dated_listings
  : list (string * (option string -> option string -> store -> result (list doc))) :=
  [("calendarevent", list_events); ("sticker", list_stickers); ("drawing", list_drawings)].

(** The store of the calendar example: an event in March, one in April. *)
Definition event (date title : string) : pyval :=
  PDict {[ "date" := PStr date; "title" := PStr title ]}.

Definition two_events : store :=
  snd (post_events (event "2024-04-01" "April")
         (snd (post_events (event "2024-03-05" "March") empty))).

(** The store of the page example: two pages of journal ["j1"] for the same
    day, written one after the other. *)
Definition page (journal_id date content : string) : pyval :=
  PDict {[ "journal_id" := PStr journal_id; "date" := PStr date;
           "content" := PStr content ]}.

Definition one_page : store :=
  snd (post_pages (L := strict_mode) (page "j1" "2024-05-01" "old") empty).

Definition two_pages : store :=
  snd (post_pages (L := strict_mode) (page "j1" "2024-05-01" "new") one_page).

(** The store of the day example: for 2024-05-01 no page, one event, two
    stickers and no drawing; one drawing on another day. *)
Definition sticker (date label : string) : pyval :=
  PDict {[ "date" := PStr date; "label" := PStr label ]}.

Definition drawing (date : string) (points : list pyval) : pyval :=
  PDict {[ "date" := PStr date; "points" := PList points ]}.

Definition point (x y : Z) : pyval := PDict {[ "x" := PInt x; "y" := PInt y ]}.

Definition one_day : store :=
  snd (post_drawings (L := strict_mode) (drawing "2024-05-02" [point 0 0; point 1 2])
    (snd (post_stickers (L := strict_mode) (sticker "2024-05-01" "moon")
      (snd (post_stickers (L := strict_mode) (sticker "2024-05-01" "star")
        (snd (post_events (event "2024-05-01" "Labour Day") empty))))))).

(** The day aggregate in the words of the specification: the page of the day
    (of the given journal, if one is given) or an explicit null, and all the
    events, stickers and drawings of that date. *)
Definition page_of_day (date : string) (journal_id : option string) (st : store)
  : pyval :=
  match filter (fun x => str_field "date" x = Some date /\
                         (truthy journal_id = true ->
                          str_field "journal_id" x = journal_id))
          (collection st "journalpage") with
  | [] => PNone
  | p :: _ => PDict (external p)
  end.

Definition records_of_day (coll date : string) (st : store) : pyval :=
  PList (PDict <$> (external
           <$> filter (fun x => str_field "date" x = Some date) (collection st coll))).

Definition day_view (date : string) (journal_id : option string) (st : store)
  : doc :=
  {[ "date" := PStr date;
     "page" := page_of_day date journal_id st;
     "events" := records_of_day "calendarevent" date st;
     "stickers" := records_of_day "sticker" date st;
     "drawings" := records_of_day "drawing" date st ]}.

(** The record that a read returns for a model stored in [st]: its dump and
    the new identifier. *)
Definition returned (st : store) (dump : doc) : doc :=
  <["id" := PStr (str_oid (next_oid st))]> dump.

(** A record dated [d], created in [st] (giving [st']), is listed by [h]:
    under its exact date, with no filter, and under every month pattern that
    matches its date. *)
Definition listed_after
    (h : option string -> option string -> store -> result (list doc))
    (st st' : store) (d : string) (dump : doc) : Prop :=
  (d <> "" -> forall month,
     exists items, h (Some d) month st' = Ok items /\ returned st dump ∈ items)
  /\ (forall date month, truthy date = false -> truthy month = false ->
       exists items, h date month st' = Ok items /\ returned st dump ∈ items)
  /\ (forall date m r, truthy date = false -> m <> "" ->
       Regex.compile ("^" ++ m)%string = Some r -> Regex.search r d = true ->
       exists items, h date (Some m) st' = Ok items /\ returned st dump ∈ items).

(** The declarations of [schemas.py] as a table: for each field its
    annotation and its default, if it has one. *)
Inductive annotation := AStr | AOptStr | AInt | AFloat | AOptFloat | APoints.

Definition schema : Type := list (string * annotation * option pyval).

Definition Journal_schema : schema :=
  [("title", AStr, None);
   ("cover_style", AStr, Some (PStr "pastel-pink"));
   ("paper_style", AStr, Some (PStr "dotted"));
   ("owner", AOptStr, Some PNone)].

Definition JournalPage_schema : schema :=
  [("journal_id", AStr, None);
   ("date", AStr, None);
   ("content", AStr, Some (PStr ""));
   ("font", AStr, Some (PStr "Inter"));
   ("font_size", AInt, Some (PInt 16));
   ("color", AStr, Some (PStr "#1f2937"));
   ("alignment", AStr, Some (PStr "left"));
   ("background", AOptStr, Some PNone)].

Definition CalendarEvent_schema : schema :=
  [("date", AStr, None);
   ("title", AStr, None);
   ("highlight", AOptStr, Some PNone);
   ("emoji", AOptStr, Some PNone)].

Definition Sticker_schema : schema :=
  [("date", AStr, None);
   ("category", AStr, Some (PStr "decor"));
   ("label", AStr, None);
   ("x", AFloat, Some (PInt 0));
   ("y", AFloat, Some (PInt 0));
   ("size", AFloat, Some (PFloat (float_of_Z 1)))].

Definition StrokePoint_schema : schema :=
  [("x", AFloat, None);
   ("y", AFloat, None);
   ("p", AOptFloat, Some PNone);
   ("t", AOptFloat, Some PNone)].

Definition Drawing_schema : schema :=
  [("date", AStr, None);
   ("tool", AStr, Some (PStr "pen"));
   ("color", AStr, Some (PStr "#111827"));
   ("size", AFloat, Some (PFloat (float_of_Z 2)));
   ("points", APoints, Some (PList []))].

(** How a supplied float is stored: as it is, as the nearest float of a
    supplied integer, or as lax mode converts the value. *)
Definition stored_float `{L : LaxMode} (v : pyval) (f : spec_float) : Prop :=
  v = PFloat f
  \/ (exists n, v = PInt n /\ is_finite (float_of_Z n) = true /\ f = float_of_Z n)
  \/ lax_float v = Some f.

(** How a value supplied for a field of a given annotation is stored, for
    the annotations other than the list of points: a string or a null as it
    is, an integer as it is or as lax mode converts the value, a float as
    [stored_float] says. *)
Definition stored_scalar `{L : LaxMode} (a : annotation) (v w : pyval) : Prop :=
  match a with
  | AStr => (exists s, v = PStr s) /\ w = v
  | AOptStr => (v = PNone \/ exists s, v = PStr s) /\ w = v
  | AInt => exists n, w = PInt n /\ (v = PInt n \/ lax_int v = Some n)
  | AFloat => exists f, w = PFloat f /\ stored_float v f
  | AOptFloat =>
      (v = PNone /\ w = PNone) \/ exists f, w = PFloat f /\ stored_float v f
  | APoints => False
  end.

(** A stored document conforms to a schema and a body: it has exactly the
    fields of the schema; a field that the body supplies holds the supplied
    value, stored as [rel] says for its annotation; a field that the body
    does not supply has a default, and holds it. *)
Definition conforms_with (rel : annotation -> pyval -> pyval -> Prop)
    (sch : schema) (body : pyval) (dump : doc) : Prop :=
  exists d, body = PDict d
    /\ dom dump = list_to_set ((fun e => fst (fst e)) <$> sch)
    /\ Forall (fun e : string * annotation * option pyval =>
                 match d !! fst (fst e) with
                 | Some v => exists w, dump !! fst (fst e) = Some w
                                       /\ rel (snd (fst e)) v w
                 | None => exists w, snd e = Some w /\ dump !! fst (fst e) = Some w
                 end) sch.

(** The list of points is stored point by point, in the same order, each
    point conforming to the schema of [StrokePoint]. *)
Definition stored_for `{L : LaxMode} (a : annotation) (v w : pyval) : Prop :=
  match a with
  | APoints =>
      exists l l', v = PList l /\ w = PList l'
        /\ Forall2 (fun x y => exists q, y = PDict q
                                /\ conforms_with stored_scalar StrokePoint_schema x q)
             l l'
  | _ => stored_scalar a v w
  end.

Definition conforms `{L : LaxMode} (sch : schema) (body : pyval) (dump : doc) : Prop :=
  conforms_with stored_for sch body dump.

(** A record read back is the external form of a document of the given
    stored ones: that document without its [_id], with the string form of
    that [_id] under [id]. *)
Definition exposes (docs : list doc) (it : doc) : Prop :=
  exists p o, p ∈ docs /\ p !! "_id" = Some (PObjectId o)
              /\ it = <["id" := PStr (str_oid o)]> (delete "_id" p).

(** The number of characters of a Python string held as UTF-8 (the bytes
    that are not continuation bytes), and whether the bytes are UTF-8:
    every character is a lead byte followed by its continuation bytes. *)
Definition is_continuation (c : ascii) : bool :=
  (128 <=? N_of_ascii c)%N && (N_of_ascii c <? 192)%N.

Fixpoint py_len (s : string) : nat :=
  match s with
  | EmptyString => 0
  | String c rest => (if is_continuation c then 0 else 1) + py_len rest
  end.

Fixpoint utf8_from (pending : nat) (s : string) : bool :=
  match s with
  | EmptyString => Nat.eqb pending 0
  | String c rest =>
      match pending with
      | O => negb (is_continuation c) && utf8_from (Regex.continuation_bytes c) rest
      | S k => is_continuation c && utf8_from k rest
      end
  end.

Definition utf8 (s : string) : bool := utf8_from 0 s.

(** Validation reports the violation [v]. *)
Definition reports {A : Type} (v : verr) (c : checked A) : Prop :=
  exists errs, c = Invalid errs /\ v ∈ errs.

(** A model whose dump has no [_id] field and no [ObjectId] in it. *)
Definition dumps_plain (T : Type) `{BaseModel T} : Prop :=
  forall x : T, model_dump x !! "_id" = None /\ has_oid (PDict (model_dump x)) = false.

(** The fields declared by each model. *)
Definition Journal_fields : list string :=
  ["title"; "cover_style"; "paper_style"; "owner"].
Definition JournalPage_fields : list string :=
  ["journal_id"; "date"; "content"; "font"; "font_size"; "color"; "alignment";
   "background"].
Definition CalendarEvent_fields : list string :=
  ["date"; "title"; "highlight"; "emoji"].
Definition Sticker_fields : list string :=
  ["date"; "category"; "label"; "x"; "y"; "size"].
Definition Drawing_fields : list string :=
  ["date"; "tool"; "color"; "size"; "points"].

(** A POST request, and the store after a sequence of them. *)
Inductive request :=
| PostJournal (body : pyval)
| PostPage (body : pyval)
| PostEvent (body : pyval)
| PostSticker (body : pyval)
| PostDrawing (body : pyval).

Definition handle `{L : LaxMode} (r : request) (st : store) : result doc * store :=
  match r with
  | PostJournal body => post_journals body st
  | PostPage body => post_pages body st
  | PostEvent body => post_events body st
  | PostSticker body => post_stickers body st
  | PostDrawing body => post_drawings body st
  end.

Definition collection_of (r : request) : string :=
  match r with
  | PostJournal _ => "journal"
  | PostPage _ => "journalpage"
  | PostEvent _ => "calendarevent"
  | PostSticker _ => "sticker"
  | PostDrawing _ => "drawing"
  end.

(** The validated form of the body of a request, as the document that is
    stored for it. *)
Definition dump_of `{L : LaxMode} (r : request) : result doc :=
  match r with
  | PostJournal body =>
      model_dump <$> to_result (at_loc (Key "body") (Journal.validate body))
  | PostPage body =>
      model_dump <$> to_result (at_loc (Key "body") (JournalPage.validate body))
  | PostEvent body =>
      model_dump <$> to_result (at_loc (Key "body") (CalendarEvent.validate body))
  | PostSticker body =>
      model_dump <$> to_result (at_loc (Key "body") (Sticker.validate body))
  | PostDrawing body =>
      model_dump <$> to_result (at_loc (Key "body") (Drawing.validate body))
  end.

Definition replay `{L : LaxMode} (requests : list request) (st : store) : store :=
  fold_left (fun st r => snd (handle r st)) requests st.

(** A string of decimal digits and hyphens, as the documented month
    format YYYY-MM is. *)
Definition digits_and_hyphens (m : string) : bool :=
  forallb (fun c => ((48 <=? N_of_ascii c)%N && (N_of_ascii c <=? 57)%N)
                    || Ascii.eqb c "-")
    (list_ascii_of_string m).

(** ** Auxiliary facts *)

Ltac member := repeat (apply elem_of_cons; first [left; reflexivity | right]).

Section Values.

Lemma has_oid_dict (d : doc) :
  has_oid (PDict d) = false <-> map_Forall (fun _ v => has_oid v = false) d.
Proof.
  change (has_oid (PDict d))
    with (map_fold (fun (_ : string) v' acc => has_oid v' || acc) false d).
  apply (map_fold_weak_ind
           (fun r (m : doc) => r = false <-> map_Forall (fun _ v => has_oid v = false) m)).
  - split; [intros _; apply map_Forall_empty | reflexivity].
  - intros i x m r Hi IH. rewrite map_Forall_insert by assumption.
    rewrite orb_false_iff, IH. reflexivity.
Qed.

Lemma has_oid_insert (d : doc) k v :
  has_oid v = false -> has_oid (PDict d) = false ->
  has_oid (PDict (<[k := v]> d)) = false.
Proof.
  rewrite !has_oid_dict. intros Hv Hd. apply map_Forall_insert_2; assumption.
Qed.

Lemma has_oid_empty : has_oid (PDict ∅) = false.
Proof. apply has_oid_dict, map_Forall_empty. Qed.

Lemma has_oid_list_dicts (l : list doc) :
  Forall (fun d => has_oid (PDict d) = false) l ->
  has_oid (PList (PDict <$> l)) = false.
Proof.
  induction 1 as [|d l Hd _ IH]; [reflexivity|].
  change (has_oid (PDict d) || has_oid (PList (PDict <$> l)) = false).
  rewrite Hd, IH. reflexivity.
Qed.

End Values.

Section Exposure.

Lemma expose_id_stored (d : doc) :
  stored_ok d = true -> expose_id d = Ok (external d).
Proof.
  unfold stored_ok, expose_id, external.
  destruct (d !! "_id") as [[]|]; try discriminate. reflexivity.
Qed.

Lemma external_clean (d : doc) : stored_ok d = true -> clean (external d).
Proof.
  unfold stored_ok, external, clean.
  destruct (d !! "_id") as [[]|] eqn:E; try discriminate.
  rewrite negb_true_iff. intros Hno. repeat split.
  - rewrite lookup_insert_ne by discriminate. apply lookup_delete_eq.
  - exists (str_oid o). apply lookup_insert_eq.
  - apply has_oid_insert; [reflexivity | assumption].
Qed.

Lemma external_lookup (d : doc) k :
  stored_ok d = true -> k <> "id" -> k <> "_id" -> external d !! k = d !! k.
Proof.
  unfold stored_ok, external.
  destruct (d !! "_id") as [[]|]; try discriminate. intros _ H1 H2.
  rewrite lookup_insert_ne, lookup_delete_ne; congruence.
Qed.

Lemma mapM_expose_id (l : list doc) :
  Forall (fun d => stored_ok d = true) l ->
  mapM expose_id l = Ok (external <$> l).
Proof.
  induction 1 as [|d l Hd _ IH]; [reflexivity|].
  cbn [mapM]. rewrite (expose_id_stored _ Hd). cbn. rewrite IH. reflexivity.
Qed.

Lemma mapM_expose_id_inv (l k : list doc) :
  mapM expose_id l = Ok k -> Forall2 (fun x y => expose_id x = Ok y) l k.
Proof.
  revert k. induction l as [|d l IH]; intros k; cbn [mapM].
  - intros [= <-]. constructor.
  - destruct (expose_id d) as [d'|] eqn:E; [|discriminate]. cbn.
    destruct (mapM expose_id l) as [k'|]; [|discriminate]. cbn.
    intros [= <-]. constructor; [assumption | apply IH; reflexivity].
Qed.

End Exposure.

Section Queries.

Lemma List_filter_decide {A : Type} (f : A -> bool) (P : A -> Prop)
    `{!forall x, Decision (P x)} (l : list A) :
  (forall x, f x = true <-> P x) -> List.filter f l = filter P l.
Proof.
  intros Hf. induction l as [|x l IH]; [reflexivity|].
  cbn [List.filter]. rewrite filter_cons, IH.
  destruct (decide (P x)) as [Hp|Hn].
  - apply Hf in Hp. rewrite Hp. reflexivity.
  - destruct (f x) eqn:E; [|reflexivity]. apply Hf in E. contradiction.
Qed.

Lemma holds_exact (k s : string) (d : doc) :
  holds (CExact s) (d !! k) = true <-> str_field k d = Some s.
Proof.
  unfold str_field. cbn.
  destruct (d !! k) as [[]|]; try (split; discriminate).
  rewrite String.eqb_eq. split; [intros -> | intros [= ->]]; reflexivity.
Qed.

Lemma holds_regex (k : string) (r : Regex.t) (d : doc) :
  holds (CRegex r) (d !! k) = true <->
  from_option (Regex.search r) false (str_field k d) = true.
Proof.
  unfold str_field. cbn. destruct (d !! k) as [[]|]; reflexivity.
Qed.

Lemma get_documents_all c lim st :
  get_documents c [] lim st = Ok (cap lim (collection st c)).
Proof.
  unfold get_documents. cbn. f_equal. f_equal.
  induction (collection st c) as [|x l IH]; [reflexivity|].
  cbn. f_equal. exact IH.
Qed.

Lemma get_documents_exact c k s lim st :
  get_documents c [(k, Exact s)] lim st =
  Ok (cap lim (filter (fun d => str_field k d = Some s) (collection st c))).
Proof.
  unfold get_documents. cbn. f_equal. f_equal.
  apply List_filter_decide. intros d. unfold satisfies. cbn [forallb fst snd].
  rewrite andb_true_r. apply holds_exact.
Qed.

Lemma get_documents_exact2 c k1 s1 k2 s2 lim st :
  get_documents c [(k1, Exact s1); (k2, Exact s2)] lim st =
  Ok (cap lim (filter (fun d => str_field k1 d = Some s1 /\ str_field k2 d = Some s2)
                 (collection st c))).
Proof.
  unfold get_documents. cbn. f_equal. f_equal.
  apply List_filter_decide. intros d. unfold satisfies. cbn [forallb fst snd].
  rewrite andb_true_r, andb_true_iff, !holds_exact. reflexivity.
Qed.

Lemma get_documents_regex c k p r lim st :
  Regex.compile p = Some r ->
  get_documents c [(k, RegexCond p)] lim st =
  Ok (cap lim (filter (fun d => from_option (Regex.search r) false (str_field k d) = true)
                 (collection st c))).
Proof.
  intros Hr. unfold get_documents. cbn. unfold compile_item. cbn. rewrite Hr. cbn.
  f_equal. f_equal.
  apply List_filter_decide. intros d. unfold satisfies. cbn [forallb fst snd].
  rewrite andb_true_r. apply holds_regex.
Qed.

Lemma get_documents_bad_regex c k p lim st :
  Regex.compile p = None ->
  get_documents c [(k, RegexCond p)] lim st = Raise Unsupported.
Proof.
  intros Hr. unfold get_documents. cbn. unfold compile_item. cbn. rewrite Hr.
  reflexivity.
Qed.

End Queries.

Section PlainPatterns.

Lemma not_meta_parse (c : ascii) (rest : string) :
  Regex.is_meta c = false ->
  Regex.parse (String c rest) = cons (Regex.Lit c) <$> Regex.parse rest.
Proof.
  intros Hc. cbn [Regex.parse]. rewrite Hc.
  unfold Regex.is_meta, Regex.metachars in Hc. cbn in Hc.
  rewrite !orb_false_iff in Hc.
  destruct Hc as [(Hbs & _ & _ & Hdot & _) _].
  rewrite Hdot, Hbs. reflexivity.
Qed.

Lemma plain_parse (m : string) :
  plain m = true ->
  Regex.parse m = Some (Regex.Lit <$> list_ascii_of_string m).
Proof.
  unfold plain. induction m as [|c m IH]; [reflexivity|].
  cbn [list_ascii_of_string forallb]. rewrite andb_true_iff, negb_true_iff.
  intros [Hc Hm]. rewrite (not_meta_parse _ _ Hc), (IH Hm). reflexivity.
Qed.

Lemma plain_compile (m : string) :
  plain m = true ->
  Regex.compile ("^" ++ m)%string =
  Some {| Regex.anchored := true;
          Regex.atoms := Regex.Lit <$> list_ascii_of_string m |}.
Proof.
  intros Hm.
  change (Regex.compile ("^" ++ m)%string) with (Regex.Build_t true <$> Regex.parse m).
  rewrite (plain_parse _ Hm). reflexivity.
Qed.

Lemma match_literals (m s : string) :
  Regex.match_here (Regex.Lit <$> list_ascii_of_string m) s = String.prefix m s.
Proof.
  revert s. induction m as [|c m IH]; intros s.
  - destruct s; reflexivity.
  - destruct s as [|c' s]; [reflexivity|].
    cbn. rewrite IH. destruct (Ascii.ascii_dec c c') as [->|Hne].
    + rewrite Ascii.eqb_refl. reflexivity.
    + apply Ascii.eqb_neq in Hne. rewrite Hne. reflexivity.
Qed.

End PlainPatterns.

Section Stores.

Context `{L : LaxMode}.

Lemma has_oid_singleton k v : has_oid v = false -> has_oid (PDict {[ k := v ]}) = false.
Proof.
  intros Hv. rewrite <- insert_empty. apply has_oid_insert; [exact Hv | apply has_oid_empty].
Qed.

Lemma has_oid_optional {A : Type} (f : A -> pyval) (o : option A) :
  (forall a, has_oid (f a) = false) -> has_oid (dump_optional f o) = false.
Proof. intros Hf. destruct o; [apply Hf | reflexivity]. Qed.

Lemma has_oid_points (l : list StrokePoint.t) :
  has_oid (PList (map (fun q => PDict (StrokePoint.model_dump q)) l)) = false.
Proof.
  induction l as [|q l IH]; [reflexivity|].
  change (has_oid (PDict (StrokePoint.model_dump q))
          || has_oid (PList (map (fun q => PDict (StrokePoint.model_dump q)) l)) = false).
  rewrite IH, orb_false_r. unfold StrokePoint.model_dump.
  repeat (apply has_oid_insert || apply has_oid_singleton);
    try reflexivity; apply has_oid_optional; reflexivity.
Qed.

Lemma Journal_plain : dumps_plain Journal.t.
Proof.
  intros j. split; [reflexivity|].
  unfold model_dump, Journal_model, Journal.model_dump.
  repeat (apply has_oid_insert || apply has_oid_singleton);
    try reflexivity; apply has_oid_optional; reflexivity.
Qed.

Lemma JournalPage_plain : dumps_plain JournalPage.t.
Proof.
  intros j. split; [reflexivity|].
  unfold model_dump, JournalPage_model, JournalPage.model_dump.
  repeat (apply has_oid_insert || apply has_oid_singleton);
    try reflexivity; apply has_oid_optional; reflexivity.
Qed.

Lemma CalendarEvent_plain : dumps_plain CalendarEvent.t.
Proof.
  intros j. split; [reflexivity|].
  unfold model_dump, CalendarEvent_model, CalendarEvent.model_dump.
  repeat (apply has_oid_insert || apply has_oid_singleton);
    try reflexivity; apply has_oid_optional; reflexivity.
Qed.

Lemma Sticker_plain : dumps_plain Sticker.t.
Proof.
  intros j. split; [reflexivity|].
  unfold model_dump, Sticker_model, Sticker.model_dump.
  repeat (apply has_oid_insert || apply has_oid_singleton);
    try reflexivity; destruct (_ j); reflexivity.
Qed.

Lemma Drawing_plain : dumps_plain Drawing.t.
Proof.
  intros j. split; [reflexivity|].
  unfold model_dump, Drawing_model, Drawing.model_dump.
  repeat (apply has_oid_insert || apply has_oid_singleton);
    try reflexivity; apply has_oid_points.
Qed.

Lemma stored_ok_new (d : doc) (o : N) :
  d !! "_id" = None -> has_oid (PDict d) = false ->
  stored_ok (<["_id" := PObjectId o]> d) = true.
Proof.
  intros Hid Hd. unfold stored_ok.
  rewrite lookup_insert_eq, delete_insert_eq, (delete_id _ _ Hid), Hd. reflexivity.
Qed.

Lemma collection_create {T : Type} `{BaseModel T} (c : string) (data : T) st c' :
  collection (snd (create_document c data st)) c' =
  if decide (c = c')
  then collection st c ++ [<["_id" := PObjectId (next_oid st)]> (model_dump data)]
  else collection st c'.
Proof.
  unfold create_document, collection at 1. cbn [snd collections].
  destruct (decide (c = c')) as [<-|Hne].
  - rewrite lookup_insert_eq. reflexivity.
  - rewrite lookup_insert_ne by assumption. reflexivity.
Qed.

Lemma well_stored_collection st c :
  well_stored st = true -> c ∈ collection_names ->
  Forall (fun d => stored_ok d = true) (collection st c).
Proof.
  unfold well_stored. rewrite forallb_forall. intros Hall Hc.
  apply list_elem_of_In in Hc. specialize (Hall _ Hc).
  rewrite forallb_forall in Hall. apply Forall_forall.
  intros d Hd. apply Hall, list_elem_of_In, Hd.
Qed.

Lemma well_stored_intro st :
  (forall c, c ∈ collection_names -> Forall (fun d => stored_ok d = true) (collection st c)) ->
  well_stored st = true.
Proof.
  intros Hall. unfold well_stored. apply forallb_forall. intros c Hc.
  apply forallb_forall. intros d Hd.
  apply list_elem_of_In in Hc, Hd.
  specialize (Hall c Hc). rewrite Forall_forall in Hall. apply Hall, Hd.
Qed.

Lemma well_stored_empty : well_stored empty = true.
Proof. reflexivity. Qed.

Lemma well_stored_create {T : Type} `{BaseModel T} (c : string) (data : T) st :
  dumps_plain T -> well_stored st = true ->
  well_stored (snd (create_document c data st)) = true.
Proof.
  intros Hplain Hst. apply well_stored_intro. intros c' Hc'.
  rewrite collection_create. destruct (decide (c = c')) as [<-|Hne].
  - apply Forall_app. split; [apply well_stored_collection; assumption|].
    constructor; [|constructor].
    destruct (Hplain data) as [Hid Hno]. apply stored_ok_new; assumption.
  - apply well_stored_collection; assumption.
Qed.

(** Every POST route keeps the store well formed. *)
Lemma with_body_well_stored {T : Type} `{BaseModel T} (validate : pyval -> checked T)
    (coll : string) (body : pyval) st :
  dumps_plain T -> well_stored st = true ->
  well_stored
    (snd (with_body validate
            (fun m st0 => let '(inserted_id, st') := create_document coll m st0 in
                          ({[ "id" := PStr inserted_id ]}, st'))
            body st)) = true.
Proof.
  intros Hplain Hst. unfold with_body.
  destruct (to_result (at_loc (Key "body") (validate body))) as [m|e]; [|exact Hst].
  apply (well_stored_create coll m st Hplain Hst).
Qed.

Lemma posts_well_stored body st :
  well_stored st = true ->
  well_stored (snd (post_journals body st)) = true
  /\ well_stored (snd (post_pages body st)) = true
  /\ well_stored (snd (post_events body st)) = true
  /\ well_stored (snd (post_stickers body st)) = true
  /\ well_stored (snd (post_drawings body st)) = true.
Proof.
  intros Hst. repeat split.
  - apply (with_body_well_stored Journal.validate "journal"); [apply Journal_plain | exact Hst].
  - apply (with_body_well_stored JournalPage.validate "journalpage");
      [apply JournalPage_plain | exact Hst].
  - apply (with_body_well_stored CalendarEvent.validate "calendarevent");
      [apply CalendarEvent_plain | exact Hst].
  - apply (with_body_well_stored Sticker.validate "sticker"); [apply Sticker_plain | exact Hst].
  - apply (with_body_well_stored Drawing.validate "drawing"); [apply Drawing_plain | exact Hst].
Qed.

End Stores.

(** ** Listing by date or month *)

Ltac dated_cases H :=
  unfold dated_listings in H;
  repeat (apply elem_of_cons in H; destruct H as [H|H]; [injection H as -> ->|]);
  [ | | | apply elem_of_nil in H; contradiction].

Section Listings.

Lemma dated_by_date coll h (d : string) month st :
  (coll, h) ∈ dated_listings -> d <> "" ->
  h (Some d) month st =
  mapM expose_id (filter (fun x => str_field "date" x = Some d) (collection st coll)).
Proof.
  intros Hin Hd. apply String.eqb_neq in Hd.
  dated_cases Hin;
    (unfold list_events, list_stickers, list_drawings, truthy; rewrite Hd;
     cbn [negb default]; rewrite get_documents_exact; reflexivity).
Qed.

Lemma dated_by_month coll h date (m : string) st :
  (coll, h) ∈ dated_listings -> truthy date = false -> m <> "" ->
  h date (Some m) st =
  get_documents coll [("date", RegexCond ("^" ++ m)%string)] None st ≫= mapM expose_id.
Proof.
  intros Hin Hdate Hm. apply String.eqb_neq in Hm.
  dated_cases Hin;
    (unfold list_events, list_stickers, list_drawings; rewrite Hdate;
     unfold truthy; rewrite Hm; reflexivity).
Qed.

Lemma dated_unfiltered coll h date month st :
  (coll, h) ∈ dated_listings -> truthy date = false -> truthy month = false ->
  h date month st = mapM expose_id (collection st coll).
Proof.
  intros Hin Hdate Hmonth.
  dated_cases Hin;
    (unfold list_events, list_stickers, list_drawings; rewrite Hdate, Hmonth;
     rewrite get_documents_all; reflexivity).
Qed.

Lemma truthy_true (o : option string) :
  truthy o = true <-> exists s, o = Some s /\ s <> "".
Proof.
  destruct o as [s|]; cbn.
  - rewrite negb_true_iff, String.eqb_neq. split.
    + intros Hs. exists s. split; [reflexivity | assumption].
    + intros (s' & [= <-] & Hs). exact Hs.
  - split; [discriminate | intros (s & [=] & _)].
Qed.

(** A month without metacharacters selects by literal prefix. *)
Lemma plain_month_is_prefix coll h date (m : string) st :
  (coll, h) ∈ dated_listings -> truthy date = false -> m <> "" -> plain m = true ->
  h date (Some m) st =
  mapM expose_id
    (filter (fun x => from_option (String.prefix m) false (str_field "date" x) = true)
       (collection st coll)).
Proof.
  intros Hin Hdate Hm Hplain.
  rewrite (dated_by_month _ _ _ _ _ Hin Hdate Hm).
  rewrite (get_documents_regex _ _ _ _ _ _ (plain_compile _ Hplain)). cbn.
  f_equal. apply list_filter_iff. intros x.
  destruct (str_field "date" x) as [s|]; cbn; [|reflexivity].
  unfold Regex.search. cbn. rewrite match_literals. reflexivity.
Qed.

End Listings.

(** C1, evaluated on the code: the month ["2024-0."] is sent to the store as
    the pattern ["^2024-0."], whose dot matches any character, so the listing
    returns the events dated ["2024-03-05"] and ["2024-04-01"], neither of
    which starts with the string ["2024-0."]. *)
Theorem month_metacharacter_is_not_literal :
  fmap (M := list) (str_field "date") <$> list_events None (Some "2024-0.") two_events
    = Ok [Some "2024-03-05"; Some "2024-04-01"]
  /\ String.prefix "2024-0." "2024-03-05" = false
  /\ String.prefix "2024-0." "2024-04-01" = false.
Proof. repeat split; vm_compute; reflexivity. Qed.

(** C3: in the listings of calendar events, stickers and drawings the first
    non-empty of [date] and [month] is the filter. A non-empty [date] selects
    the records whose date equals it, whatever [month] is; with no [date], a
    non-empty [month] is the only filter, as the pattern anchored at the
    start of the date, and selects the records whose date the pattern
    matches; with neither, every record of the collection is returned, with
    no cap. *)
Theorem first_non_empty_wins coll h (date month : option string) st :
  (coll, h) ∈ dated_listings ->
  (truthy date = true ->
     h date month st = h date None st /\
     h date month st =
     mapM expose_id (filter (fun x => str_field "date" x = date) (collection st coll)))
  /\ (truthy date = false -> truthy month = true ->
      h date month st =
      (get_documents coll [("date", RegexCond ("^" ++ default "" month)%string)] None st
       ≫= mapM expose_id)
      /\ forall r, Regex.compile ("^" ++ default "" month)%string = Some r ->
         h date month st =
         mapM expose_id
           (filter (fun x => from_option (Regex.search r) false (str_field "date" x) = true)
              (collection st coll)))
  /\ (truthy date = false -> truthy month = false ->
      h date month st = mapM expose_id (collection st coll)).
Proof.
  intros Hin. split; [|split].
  - intros Hdate. apply truthy_true in Hdate as (d & -> & Hd).
    rewrite !(dated_by_date _ _ _ _ _ Hin Hd). split; reflexivity.
  - intros Hdate Hmonth. apply truthy_true in Hmonth as (m & -> & Hm).
    rewrite (dated_by_month _ _ _ _ _ Hin Hdate Hm). cbn [default].
    split; [reflexivity|]. intros r Hr.
    rewrite (get_documents_regex _ _ _ _ _ _ Hr). reflexivity.
  - intros Hdate Hmonth. apply (dated_unfiltered _ _ _ _ _ Hin Hdate Hmonth).
Qed.

Lemma first_non_empty_wins_witness :
  ("calendarevent", list_events) ∈ dated_listings
  /\ truthy (Some "2024-04-01") = true
  /\ list_events (Some "2024-04-01") (Some "2024-03") two_events
     = list_events (Some "2024-04-01") None two_events
  /\ fmap (M := list) (str_field "date")
       <$> list_events (Some "2024-04-01") (Some "2024-03") two_events
     = Ok [Some "2024-04-01"].
Proof.
  assert (Hin : ("calendarevent", list_events) ∈ dated_listings)
    by (apply elem_of_cons; left; reflexivity).
  destruct (first_non_empty_wins "calendarevent" list_events
              (Some "2024-04-01") (Some "2024-03") two_events Hin) as (Hdate & _ & _).
  destruct (Hdate eq_refl) as [Hsame Hsel].
  split; [exact Hin|]. split; [reflexivity|]. split; [exact Hsame|].
  rewrite Hsel. vm_compute. reflexivity.
Defined.

(** The calendar example of the specification. *)
Example march_by_month :
  fmap (M := list) (str_field "date") <$> list_events None (Some "2024-03") two_events
  = Ok [Some "2024-03-05"].
Proof. vm_compute. reflexivity. Qed.

Example march_by_date :
  fmap (M := list) (str_field "date") <$> list_events (Some "2024-03-05") None two_events
  = Ok [Some "2024-03-05"].
Proof. vm_compute. reflexivity. Qed.

Example everything_unfiltered :
  fmap (M := list) (str_field "date") <$> list_events (Some "") None two_events
  = Ok [Some "2024-03-05"; Some "2024-04-01"].
Proof. vm_compute. reflexivity. Qed.

(** ** Pages and the day aggregate *)

Section Pages.

Lemma Forall_list_filter {A : Type} (P Q : A -> Prop) `{!forall x, Decision (Q x)}
    (l : list A) :
  Forall P l -> Forall P (filter Q l).
Proof.
  rewrite !Forall_forall. intros Hl x Hx.
  apply list_elem_of_filter in Hx as [_ Hx]. apply Hl, Hx.
Qed.

Lemma filter_all {A : Type} (l : list A) : filter (fun _ => True) l = l.
Proof.
  induction l as [|x l IH]; [reflexivity|].
  rewrite filter_cons_True by exact I. rewrite IH. reflexivity.
Qed.

Lemma get_page_first j d st :
  get_page j d st =
  match filter (fun x => str_field "journal_id" x = Some j /\ str_field "date" x = Some d)
          (collection st "journalpage") with
  | [] => Raise (HTTPException 404 "Page not found")
  | p :: _ => expose_id p
  end.
Proof.
  unfold get_page. rewrite get_documents_exact2. cbn.
  destruct (filter _ _) as [|p l]; reflexivity.
Qed.

Lemma filter_first {A : Type} (P : A -> Prop) `{!forall x, Decision (P x)}
    (before after : list A) (p : A) :
  (forall x, x ∈ before -> ~ P x) -> P p ->
  filter P (before ++ p :: after) = p :: filter P after.
Proof.
  intros Hbefore Hp. rewrite filter_app, filter_cons_True by assumption.
  replace (filter P before) with (@nil A); [reflexivity|].
  symmetry. induction before as [|x l IH]; [reflexivity|].
  rewrite filter_cons_False; [apply IH|apply Hbefore; left].
  intros y Hy. apply Hbefore. right. exact Hy.
Qed.

Lemma filter_none {A : Type} (P : A -> Prop) `{!forall x, Decision (P x)}
    (l : list A) :
  (forall x, x ∈ l -> ~ P x) -> filter P l = [].
Proof.
  intros Hl. induction l as [|x l IH]; [reflexivity|].
  rewrite filter_cons_False; [apply IH|apply Hl; left].
  intros y Hy. apply Hl. right. exact Hy.
Qed.

Lemma filter_some {A : Type} (P : A -> Prop) `{!forall x, Decision (P x)}
    (l : list A) (x : A) :
  x ∈ l -> P x -> exists p rest, filter P l = p :: rest /\ p ∈ l /\ P p.
Proof.
  intros Hx Hp.
  destruct (filter P l) as [|p rest] eqn:E.
  - exfalso. apply (filter_nil_not_elem_of P l x E Hp Hx).
  - exists p, rest. split; [reflexivity|].
    assert (Hin : p ∈ filter P l) by (rewrite E; left).
    apply list_elem_of_filter in Hin as [HP Hin]. split; assumption.
Qed.

Lemma get_day_pages date jid lim st :
  get_documents "journalpage"
    (if truthy jid
     then [("journal_id", Exact (default "" jid)); ("date", Exact date)]
     else [("date", Exact date)]) lim st =
  Ok (cap lim
        (filter (fun x => str_field "date" x = Some date /\
                          (truthy jid = true -> str_field "journal_id" x = jid))
           (collection st "journalpage"))).
Proof.
  destruct (truthy jid) eqn:Hj.
  - apply truthy_true in Hj as (j & -> & Hj). cbn [default].
    rewrite get_documents_exact2. do 2 f_equal.
    apply list_filter_iff. intros x. tauto.
  - rewrite get_documents_exact. do 2 f_equal.
    apply list_filter_iff. intros x.
    split; [intros ?; split; [assumption | discriminate] | tauto].
Qed.

Lemma get_day_value date jid st :
  well_stored st = true -> get_day date jid st = Ok (day_view date jid st).
Proof.
  intros Hst.
  assert (Hc : forall c, c ∈ collection_names ->
                 Forall (fun d => stored_ok d = true) (collection st c))
    by (intros c Hc; apply well_stored_collection; assumption).
  assert (Hpages := Hc "journalpage" ltac:(member)).
  assert (Hevents := Hc "calendarevent" ltac:(member)).
  assert (Hstickers := Hc "sticker" ltac:(member)).
  assert (Hdrawings := Hc "drawing" ltac:(member)).
  unfold get_day, day_view, records_of_day, page_of_day.
  rewrite get_day_pages, !get_documents_exact. cbn [cap mbind result_bind].
  rewrite !mapM_expose_id by (apply Forall_list_filter; assumption).
  cbn [mbind result_bind].
  assert (Hf := Forall_list_filter _
                  (fun x => str_field "date" x = Some date /\
                            (truthy jid = true -> str_field "journal_id" x = jid))
                  _ Hpages).
  destruct (filter _ (collection st "journalpage")) as [|p l]; cbn [take].
  - cbn [mbind result_bind]. reflexivity.
  - apply Forall_cons in Hf as [Hp _]. rewrite (expose_id_stored _ Hp).
    cbn [mbind result_bind]. reflexivity.
Qed.

End Pages.

(** C5: the page lookup answers 404 when no stored page has the given
    journal and date, and a single page record, the external form of a stored
    page with that journal and date, when at least one has. *)
Theorem get_page_found_or_404 (journal_id date : string) st :
  let matching := fun x : doc =>
    str_field "journal_id" x = Some journal_id /\ str_field "date" x = Some date in
  ((forall x, x ∈ collection st "journalpage" -> ~ matching x) ->
   get_page journal_id date st = Raise (HTTPException 404 "Page not found"))
  /\ (well_stored st = true ->
      (exists x, x ∈ collection st "journalpage" /\ matching x) ->
      exists p, p ∈ collection st "journalpage" /\ matching p /\
                get_page journal_id date st = Ok (external p)).
Proof.
  intros matching. split.
  - intros Hnone. rewrite get_page_first. fold matching.
    rewrite (filter_none matching _ Hnone). reflexivity.
  - intros Hst (x & Hx & Hm). rewrite get_page_first. fold matching.
    destruct (filter_some matching _ x Hx Hm) as (p & rest & -> & Hp & Hmp).
    exists p. repeat split; try assumption; try apply Hmp.
    apply expose_id_stored.
    assert (Hall := well_stored_collection st "journalpage" Hst ltac:(member)).
    rewrite Forall_forall in Hall. apply Hall, Hp.
Qed.

Lemma get_page_found_or_404_witness :
  get_page "j1" "2024-05-01" two_events = Raise (HTTPException 404 "Page not found")
  /\ exists p, get_page "j1" "2024-05-01" two_pages = Ok (external p).
Proof.
  split.
  - apply (get_page_found_or_404 "j1" "2024-05-01" two_events).
    intros x Hx. vm_compute in Hx. apply elem_of_nil in Hx. contradiction.
  - destruct (get_page_found_or_404 "j1" "2024-05-01" two_pages) as [_ Hfound].
    destruct Hfound as (p & _ & _ & Hp).
    + reflexivity.
    + eexists. split; [left | split; reflexivity].
    + exists p. exact Hp.
Defined.

(** C9: when several stored pages have the given journal and date, the page
    lookup returns one page, the first of them in storage order. *)
Theorem get_page_returns_first (journal_id date : string) st
    (before after : list doc) (p : doc) (o : N) :
  let matching := fun x : doc =>
    str_field "journal_id" x = Some journal_id /\ str_field "date" x = Some date in
  collection st "journalpage" = before ++ p :: after ->
  (forall x, x ∈ before -> ~ matching x) ->
  matching p ->
  p !! "_id" = Some (PObjectId o) ->
  get_page journal_id date st = Ok (<["id" := PStr (str_oid o)]> (delete "_id" p)).
Proof.
  intros matching Hcoll Hbefore Hp Hid. rewrite get_page_first, Hcoll.
  fold matching. rewrite (filter_first matching before after p Hbefore Hp).
  unfold expose_id. rewrite Hid. reflexivity.
Qed.

Lemma get_page_returns_first_witness :
  str_field "content" <$> get_page "j1" "2024-05-01" two_pages = Ok (Some "old").
Proof.
  destruct (collection two_pages "journalpage") as [|p after] eqn:Hcoll;
    [discriminate Hcoll|].
  assert (Hp : p = hd ∅ (collection two_pages "journalpage")) by (rewrite Hcoll; reflexivity).
  rewrite (get_page_returns_first "j1" "2024-05-01" two_pages [] after p 0%N Hcoll).
  - rewrite Hp. vm_compute. reflexivity.
  - intros x Hx. apply elem_of_nil in Hx. contradiction.
  - rewrite Hp. split; reflexivity.
  - rewrite Hp. reflexivity.
Defined.

(** C6: over a well-formed store the day aggregate returns an object with
    exactly the fields date, page, events, stickers and drawings: the
    requested date; the first stored page of that date (and of the given
    journal, when one is given) or null when there is none; and all the
    events, stickers and drawings whose date equals the requested one, in
    their external form, which keeps the points of a drawing as stored. *)
Theorem get_day_shape (date : string) (journal_id : option string) st :
  well_stored st = true ->
  exists resp,
    get_day date journal_id st = Ok resp
    /\ dom resp = {[ "date"; "page"; "events"; "stickers"; "drawings" ]}
    /\ resp !! "date" = Some (PStr date)
    /\ resp !! "page" = Some (page_of_day date journal_id st)
    /\ resp !! "events" = Some (records_of_day "calendarevent" date st)
    /\ resp !! "stickers" = Some (records_of_day "sticker" date st)
    /\ resp !! "drawings" = Some (records_of_day "drawing" date st)
    /\ (forall x, x ∈ collection st "drawing" -> external x !! "points" = x !! "points").
Proof.
  intros Hst. exists (day_view date journal_id st).
  split; [apply get_day_value, Hst|].
  repeat split; try reflexivity.
  intros x Hx. apply external_lookup; [|discriminate|discriminate].
  assert (Hall := well_stored_collection st "drawing" Hst ltac:(member)).
  rewrite Forall_forall in Hall. apply Hall, Hx.
Qed.

Lemma get_day_shape_witness :
  exists resp events stickers,
    get_day "2024-05-01" None one_day = Ok resp
    /\ dom resp = {[ "date"; "page"; "events"; "stickers"; "drawings" ]}
    /\ resp !! "page" = Some PNone
    /\ resp !! "events" = Some (PList events) /\ length events = 1
    /\ resp !! "stickers" = Some (PList stickers) /\ length stickers = 2
    /\ resp !! "drawings" = Some (PList []).
Proof.
  destruct (get_day_shape "2024-05-01" None one_day eq_refl)
    as (resp & Hresp & Hdom & _ & Hpage & Hevents & Hstickers & Hdrawings & _).
  exists resp. eexists. eexists.
  split; [exact Hresp|]. split; [exact Hdom|].
  split; [rewrite Hpage; vm_compute; reflexivity|].
  split; [rewrite Hevents; vm_compute; reflexivity|].
  split; [vm_compute; reflexivity|].
  split; [rewrite Hstickers; vm_compute; reflexivity|].
  split; [vm_compute; reflexivity|].
  rewrite Hdrawings. vm_compute. reflexivity.
Defined.

(** C10: in the day aggregate an empty [journal_id] is treated as an absent
    one: the page is looked up by date alone, so the first stored page of
    that date is returned, whatever its journal. *)
Theorem get_day_empty_journal_id (date : string) st :
  get_day date (Some "") st = get_day date None st
  /\ (well_stored st = true ->
      forall before p after,
        collection st "journalpage" = before ++ p :: after ->
        (forall x, x ∈ before -> str_field "date" x <> Some date) ->
        str_field "date" p = Some date ->
        exists resp, get_day date (Some "") st = Ok resp
                     /\ resp !! "page" = Some (PDict (external p))).
Proof.
  split; [reflexivity|].
  intros Hst before p after Hcoll Hbefore Hp.
  exists (day_view date (Some "") st). split; [apply get_day_value, Hst|].
  change (day_view date (Some "") st !! "page")
    with (Some (page_of_day date (Some "") st)).
  f_equal. unfold page_of_day. rewrite Hcoll.
  rewrite filter_first; [reflexivity| |].
  - intros x Hx [Hd _]. apply (Hbefore x Hx Hd).
  - split; [exact Hp | discriminate].
Qed.

Lemma get_day_empty_journal_id_witness :
  exists resp p,
    get_day "2024-05-01" (Some "") two_pages = Ok resp
    /\ resp !! "page" = Some (PDict p)
    /\ str_field "journal_id" p = Some "j1".
Proof.
  destruct (collection two_pages "journalpage") as [|p after] eqn:Hcoll;
    [discriminate Hcoll|].
  assert (Hp : p = hd ∅ (collection two_pages "journalpage")) by (rewrite Hcoll; reflexivity).
  destruct (get_day_empty_journal_id "2024-05-01" two_pages) as [_ Hany].
  destruct (Hany eq_refl [] p after Hcoll) as (resp & Hresp & Hpage).
  - intros x Hx. apply elem_of_nil in Hx. contradiction.
  - rewrite Hp. reflexivity.
  - exists resp, (external p). split; [exact Hresp|]. split; [exact Hpage|].
    rewrite Hp. vm_compute. reflexivity.
Defined.

(** ** Identifiers in responses *)

Section Identifiers.

Lemma get_documents_Forall (P : doc -> Prop) c filt lim st l :
  Forall P (collection st c) -> get_documents c filt lim st = Ok l -> Forall P l.
Proof.
  intros Hall. unfold get_documents.
  destruct (mapM compile_item filt) as [cf|]; [|discriminate].
  cbn. intros [= <-].
  assert (Hf : Forall P (List.filter (satisfies cf) (collection st c))).
  { rewrite Forall_forall in *. intros x Hx.
    apply list_elem_of_In, filter_In in Hx as [Hx _].
    apply Hall, list_elem_of_In, Hx. }
  destruct lim as [n|]; cbn; [apply Forall_take|]; exact Hf.
Qed.

Lemma stored_members st c :
  well_stored st = true -> c ∈ collection_names ->
  Forall (fun d => stored_ok d = true /\ d ∈ collection st c) (collection st c).
Proof.
  intros Hst Hc. assert (Hall := well_stored_collection st c Hst Hc).
  rewrite Forall_forall in *. intros d Hd. split; [apply Hall, Hd | exact Hd].
Qed.

Lemma external_exposes (docs : list doc) (d : doc) :
  stored_ok d = true -> d ∈ docs -> exposes docs (external d).
Proof.
  unfold stored_ok, external, exposes.
  destruct (d !! "_id") as [[]|] eqn:E; try discriminate.
  intros _ Hin. exists d, o. repeat split; assumption.
Qed.

Lemma external_shown (docs : list doc) (d : doc) :
  stored_ok d = true /\ d ∈ docs -> clean (external d) /\ exposes docs (external d).
Proof.
  intros [Hd Hin]. split; [apply external_clean, Hd | apply external_exposes; assumption].
Qed.

Lemma exposed_records (docs l items : list doc) :
  Forall (fun d => stored_ok d = true /\ d ∈ docs) l ->
  mapM expose_id l = Ok items ->
  Forall (fun it => clean it /\ exposes docs it) items.
Proof.
  intros Hl.
  rewrite (mapM_expose_id l) by (apply (Forall_impl _ _ _ Hl); intros d [Hd _]; exact Hd).
  intros [= <-]. apply Forall_fmap. apply (Forall_impl _ _ _ Hl).
  intros d. apply external_shown.
Qed.

Lemma fetched_records c filt lim st items :
  well_stored st = true -> c ∈ collection_names ->
  get_documents c filt lim st ≫= mapM expose_id = Ok items ->
  Forall (fun it => clean it /\ exposes (collection st c) it) items.
Proof.
  intros Hst Hc.
  destruct (get_documents c filt lim st) as [l|] eqn:E; [|discriminate].
  cbn. apply exposed_records.
  apply (get_documents_Forall _ _ _ _ _ _ (stored_members _ _ Hst Hc) E).
Qed.

Lemma shown_records (docs l : list doc) :
  Forall (fun d => stored_ok d = true /\ d ∈ docs) l ->
  Forall (fun v => exists d, v = PDict d /\ clean d /\ exposes docs d)
         (PDict <$> (external <$> l)).
Proof.
  intros Hl. rewrite !Forall_fmap. apply (Forall_impl _ _ _ Hl).
  intros d Hd. cbn. exists (external d). split; [reflexivity | apply external_shown, Hd].
Qed.

Lemma records_no_oid (l : list doc) :
  Forall (fun d => stored_ok d = true) l ->
  has_oid (PList (PDict <$> (external <$> l))) = false.
Proof.
  intros Hl. apply has_oid_list_dicts. apply Forall_fmap.
  apply (Forall_impl _ _ _ Hl). intros d Hd. apply (external_clean d Hd).
Qed.

Lemma page_of_day_cases date jid st :
  well_stored st = true ->
  page_of_day date jid st = PNone \/
  exists p, page_of_day date jid st = PDict (external p)
            /\ stored_ok p = true /\ p ∈ collection st "journalpage".
Proof.
  intros Hst. unfold page_of_day.
  assert (Hf := Forall_list_filter _
                  (fun x => str_field "date" x = Some date /\
                            (truthy jid = true -> str_field "journal_id" x = jid))
                  _ (stored_members st "journalpage" Hst ltac:(member))).
  destruct (filter _ _) as [|p l]; [left; reflexivity|].
  right. exists p. apply Forall_cons in Hf as [Hp _]. split; [reflexivity | exact Hp].
Qed.

End Identifiers.

(** C8: over a well-formed store every record returned by a read operation
    (the journal list, the page lookup, the listings of events, stickers and
    drawings, the day aggregate) is a document of the collection read, with
    its [_id] field removed and the string form of that [_id] under [id],
    its other fields as stored; it has no [_id] field, has a string under
    [id], and contains no [ObjectId] anywhere. *)
Theorem responses_hide_object_ids st :
  well_stored st = true ->
  (forall limit items, list_journals limit st = Ok items ->
     Forall (fun it => clean it /\ exposes (collection st "journal") it) items)
  /\ (forall journal_id date p, get_page journal_id date st = Ok p ->
        clean p /\ exposes (collection st "journalpage") p)
  /\ (forall coll h date month items,
        (coll, h) ∈ dated_listings -> h date month st = Ok items ->
        Forall (fun it => clean it /\ exposes (collection st coll) it) items)
  /\ (forall date journal_id resp,
        get_day date journal_id st = Ok resp ->
        has_oid (PDict resp) = false
        /\ (forall p, resp !! "page" = Some (PDict p) ->
                      clean p /\ exposes (collection st "journalpage") p)
        /\ (forall k l, resp !! k = Some (PList l) ->
              exists coll,
                (k, coll) ∈ [("events", "calendarevent"); ("stickers", "sticker");
                             ("drawings", "drawing")]
                /\ Forall (fun v => exists d, v = PDict d /\ clean d
                                              /\ exposes (collection st coll) d) l)).
Proof.
  intros Hst.
  assert (Hc : forall c, c ∈ collection_names ->
                 Forall (fun d => stored_ok d = true /\ d ∈ collection st c)
                        (collection st c))
    by (intros c Hc; apply stored_members; assumption).
  split; [|split; [|split]].
  - intros limit items. unfold list_journals.
    destruct (negb _); [discriminate|].
    apply fetched_records; [exact Hst | member].
  - intros journal_id date p. rewrite get_page_first.
    assert (Hf := Forall_list_filter _
                    (fun x => str_field "journal_id" x = Some journal_id /\
                              str_field "date" x = Some date)
                    _ (Hc "journalpage" ltac:(member))).
    destruct (filter _ _) as [|q l]; [discriminate|].
    apply Forall_cons in Hf as [Hq _].
    rewrite (expose_id_stored _ (proj1 Hq)). intros [= <-]. apply external_shown, Hq.
  - intros coll h date month items Hin.
    dated_cases Hin; unfold list_events, list_stickers, list_drawings;
      (apply fetched_records; [exact Hst | member]).
  - intros date journal_id resp. rewrite (get_day_value _ _ _ Hst). intros [= <-].
    assert (Hrec : forall c, c ∈ collection_names ->
              Forall (fun d => stored_ok d = true /\ d ∈ collection st c)
                (filter (fun x => str_field "date" x = Some date) (collection st c)))
      by (intros c Hin; apply Forall_list_filter, Hc, Hin).
    assert (Hrec' : forall c, c ∈ collection_names ->
              Forall (fun d => stored_ok d = true)
                (filter (fun x => str_field "date" x = Some date) (collection st c))).
    { intros c Hin. apply (Forall_impl _ _ _ (Hrec c Hin)). intros d [Hd _]. exact Hd. }
    split; [|split].
    + unfold day_view.
      repeat (apply has_oid_insert || apply has_oid_singleton); try reflexivity;
        try (apply records_no_oid, Hrec'; member).
      destruct (page_of_day_cases date journal_id st Hst) as [->|(p & -> & Hp & _)];
        [reflexivity | apply (external_clean p Hp)].
    + intros p. change (day_view date journal_id st !! "page")
        with (Some (page_of_day date journal_id st)).
      destruct (page_of_day_cases date journal_id st Hst) as [->|(q & -> & Hq)];
        [discriminate|]. intros [= <-]. apply external_shown, Hq.
    + intros k l. unfold day_view.
      rewrite !lookup_insert_Some, lookup_singleton_Some.
      intros [[_ [=]] | [_ [[_ Hpage] | [_ [[<- H] | [_ [[<- H] | [_ [<- H]]]]]]]]].
      * destruct (page_of_day_cases date journal_id st Hst) as [E|(q & E & _)];
          rewrite E in Hpage; discriminate.
      * injection H as <-. exists "calendarevent". split; [member|].
        apply shown_records, Hrec. member.
      * injection H as <-. exists "sticker". split; [member|].
        apply shown_records, Hrec. member.
      * injection H as <-. exists "drawing". split; [member|].
        apply shown_records, Hrec. member.
Qed.

Lemma responses_hide_object_ids_witness :
  exists items,
    list_events None None two_events = Ok items
    /\ Forall (fun it => clean it /\ exposes (collection two_events "calendarevent") it)
              items.
Proof.
  destruct (list_events None None two_events) as [items|] eqn:E; [|discriminate E].
  exists items. split; [reflexivity|].
  destruct (responses_hide_object_ids two_events eq_refl) as (_ & _ & Hlist & _).
  apply (Hlist "calendarevent" list_events None None items); [|exact E].
  apply elem_of_cons. left. reflexivity.
Defined.

(** ** Validation *)

Section Validation.

Lemma ap_valid_inv {A B : Type} (f : checked (A -> B)) (x : checked A) (b : B) :
  f <*> x = Valid b -> exists g a, f = Valid g /\ x = Valid a /\ b = g a.
Proof.
  destruct f as [g|], x as [a|]; cbn; try discriminate.
  intros [= <-]. exists g, a. repeat split.
Qed.

Lemma reports_ap_l {A B : Type} v (f : checked (A -> B)) (x : checked A) :
  reports v f -> reports v (f <*> x).
Proof.
  intros (errs & -> & Hv). destruct x as [a|errs']; cbn.
  - exists errs. split; [reflexivity | exact Hv].
  - exists (errs ++ errs'). split; [reflexivity|]. apply elem_of_app. left. exact Hv.
Qed.

Lemma reports_ap_r {A B : Type} v (f : checked (A -> B)) (x : checked A) :
  reports v x -> reports v (f <*> x).
Proof.
  intros (errs & -> & Hv). destruct f as [g|errs']; cbn.
  - exists errs. split; [reflexivity | exact Hv].
  - exists (errs' ++ errs). split; [reflexivity|]. apply elem_of_app. right. exact Hv.
Qed.

Lemma required_insert {A : Type} (d : doc) k v (conv : pyval -> checked A) :
  required (<[k := v]> d) k conv = at_loc (Key k) (conv v).
Proof. unfold required. rewrite lookup_insert_eq. reflexivity. Qed.

Lemma required_insert_ne {A : Type} (d : doc) k k' v (conv : pyval -> checked A) :
  k' <> k -> required (<[k' := v]> d) k conv = required d k conv.
Proof. intros Hk. unfold required. rewrite lookup_insert_ne by exact Hk. reflexivity. Qed.

Lemma required_delete_ne {A : Type} (d : doc) k k' (conv : pyval -> checked A) :
  k' <> k -> required (delete k' d) k conv = required d k conv.
Proof. intros Hk. unfold required. rewrite lookup_delete_ne by exact Hk. reflexivity. Qed.

Lemma defaulted_insert {A : Type} (d : doc) k v (conv : pyval -> checked A) a :
  defaulted (<[k := v]> d) k conv a = at_loc (Key k) (conv v).
Proof. unfold defaulted. rewrite lookup_insert_eq. reflexivity. Qed.

Lemma defaulted_insert_ne {A : Type} (d : doc) k k' v (conv : pyval -> checked A) a :
  k' <> k -> defaulted (<[k' := v]> d) k conv a = defaulted d k conv a.
Proof. intros Hk. unfold defaulted. rewrite lookup_insert_ne by exact Hk. reflexivity. Qed.

Lemma defaulted_delete {A : Type} (d : doc) k (conv : pyval -> checked A) a :
  defaulted (delete k d) k conv a = Valid a.
Proof. unfold defaulted. rewrite lookup_delete_eq. reflexivity. Qed.

Lemma defaulted_delete_ne {A : Type} (d : doc) k k' (conv : pyval -> checked A) a :
  k' <> k -> defaulted (delete k' d) k conv a = defaulted d k conv a.
Proof. intros Hk. unfold defaulted. rewrite lookup_delete_ne by exact Hk. reflexivity. Qed.

End Validation.

Ltac valid_fields H :=
  repeat match type of H with
         | _ <*> _ = Valid _ =>
             let g := fresh "g" in
             let a := fresh "a" in
             let Hg := fresh "Hg" in
             let Ha := fresh "Ha" in
             apply ap_valid_inv in H as (g & a & Hg & Ha & ->);
             valid_fields Hg
         | Valid _ = Valid _ => injection H as <-
         end.

(** The claim C2 as it is worded (an empty title fails validation and nothing
    is stored) does not hold: the body [{"title": ""}] is accepted. *)
Lemma empty_title_counterexample :
  ~ (forall (d : doc) st,
       d !! "title" = Some (PStr "") ->
       exists errs, post_journals (PDict d) st = (Raise (ValidationError errs), st)).
Proof.
  intros Hclaim.
  destruct (Hclaim {[ "title" := PStr "" ]} empty (lookup_singleton_eq _ _))
    as [errs Herrs].
  apply (f_equal fst) in Herrs. vm_compute in Herrs. discriminate Herrs.
Qed.

(** C2, amended: [title] is declared a required [str] with no constraint on
    its length, so a Journal body whose title is the empty string and whose
    other fields are valid passes validation, and the journal is stored,
    with the empty title, at the end of its collection. *)
Theorem empty_title_is_accepted (d : doc) (t : string) (j : Journal.t) st :
  Journal.validate (PDict (<["title" := PStr t]> d)) = Valid j ->
  let body := PDict (<["title" := PStr ""]> d) in
  let j0 := {| Journal.title := "";
               Journal.cover_style := Journal.cover_style j;
               Journal.paper_style := Journal.paper_style j;
               Journal.owner := Journal.owner j |} in
  Journal.validate body = Valid j0
  /\ fst (post_journals body st) = Ok {[ "id" := PStr (str_oid (next_oid st)) ]}
  /\ collection (snd (post_journals body st)) "journal" =
     collection st "journal" ++ [<["_id" := PObjectId (next_oid st)]> (Journal.model_dump j0)].
Proof.
  intros Hj body j0.
  assert (Hv : Journal.validate body = Valid j0).
  { unfold body, Journal.validate in *.
    rewrite required_insert, !defaulted_insert_ne by discriminate.
    rewrite required_insert, !defaulted_insert_ne in Hj by discriminate.
    valid_fields Hj. rewrite Ha, Ha0, Ha1. reflexivity. }
  split; [exact Hv|].
  unfold post_journals, with_body. rewrite Hv. cbn [at_loc to_result].
  split; [reflexivity|].
  unfold create_journal.
  change (collection (snd (create_document "journal" j0 st)) "journal" =
          collection st "journal" ++ [<["_id" := PObjectId (next_oid st)]> (model_dump j0)]).
  rewrite collection_create. rewrite decide_True by reflexivity. reflexivity.
Qed.

Lemma empty_title_is_accepted_witness :
  exists j, Journal.validate (PDict {[ "title" := PStr "" ]}) = Valid j
            /\ Journal.title j = ""
            /\ length (collection (snd (post_journals (PDict {[ "title" := PStr "" ]}) empty))
                         "journal") = 1.
Proof.
  assert (Hdiary : Journal.validate (PDict (<["title" := PStr "Diary"]> ∅)) =
                   Valid {| Journal.title := "Diary"; Journal.cover_style := "pastel-pink";
                            Journal.paper_style := "dotted"; Journal.owner := None |})
    by reflexivity.
  destruct (empty_title_is_accepted ∅ "Diary" _ empty Hdiary) as (Hvalid & _ & Hstored).
  eexists. split; [exact Hvalid|]. split; [reflexivity|].
  rewrite insert_empty in Hstored. rewrite Hstored. reflexivity.
Defined.



(** A body that only lax mode accepts is stored in its converted form: with
    [font_size] given as the float 16.0, and lax mode converting that float
    to 16, the route answers the new identifier and stores what it stores
    for the integer 16. *)
Example lax_font_size_is_stored `{L : LaxMode} :
  let body := PDict {[ "journal_id" := PStr "j1"; "date" := PStr "2024-05-01";
                       "font_size" := PFloat (float_of_Z 16) ]} in
  lax_int (PFloat (float_of_Z 16)) = Some 16%Z ->
  post_pages body empty
  = (Ok {[ "id" := PStr (str_oid 0) ]},
     snd (post_pages (L := strict_mode)
            (PDict {[ "journal_id" := PStr "j1"; "date" := PStr "2024-05-01";
                      "font_size" := PInt 16 ]}) empty)).
Proof.
  intros body Hlax.
  assert (Hv : JournalPage.validate body
               = Valid {| JournalPage.journal_id := "j1";
                          JournalPage.date := "2024-05-01";
                          JournalPage.content := "";
                          JournalPage.font := "Inter";
                          JournalPage.font_size := 16;
                          JournalPage.color := "#1f2937";
                          JournalPage.alignment := "left";
                          JournalPage.background := None |}).
  { unfold body, JournalPage.validate.
    assert (Hfs : defaulted {[ "journal_id" := PStr "j1"; "date" := PStr "2024-05-01";
                               "font_size" := PFloat (float_of_Z 16) ]} "font_size"
                    (fun v => constrained 8 64 (as_int v)) 16%Z = Valid 16%Z).
    { unfold defaulted.
      change (at_loc (Key "font_size")
                (constrained 8 64 (converted (lax_int (PFloat (float_of_Z 16)))))
              = Valid 16%Z).
      rewrite Hlax. reflexivity. }
    rewrite Hfs. reflexivity. }
  unfold post_pages, with_body. rewrite Hv. reflexivity.
Qed.

(** The violations of a body are answered under [body], and nothing is
    stored. *)
Example missing_title_is_located_under_body :
  post_journals (PDict {[ "owner" := PInt 3 ]}) empty
  = (Raise (ValidationError [([Key "body"; Key "title"], Missing);
                             ([Key "body"; Key "owner"], WrongType)]), empty).
Proof. reflexivity. Qed.

(** ** Create, then read *)

Section RoundTrip.

Context {T : Type} `{BaseModel T}.
Hypothesis plain_dump : dumps_plain T.

Lemma external_new (x : T) (o : N) :
  external (<["_id" := PObjectId o]> (model_dump x))
  = <["id" := PStr (str_oid o)]> (model_dump x).
Proof.
  unfold external. rewrite lookup_insert_eq, delete_insert_eq.
  rewrite delete_id by apply plain_dump. reflexivity.
Qed.

Lemma new_field (x : T) (o : N) k :
  str_field k (<["_id" := PObjectId o]> (model_dump x)) = str_field k (model_dump x).
Proof.
  unfold str_field. destruct (decide (k = "_id")) as [->|Hk].
  - rewrite lookup_insert_eq. destruct (plain_dump x) as [-> _]. reflexivity.
  - rewrite lookup_insert_ne by congruence. reflexivity.
Qed.

Lemma selected_new (P : doc -> Prop) `{!forall x, Decision (P x)}
    coll (x : T) st :
  well_stored st = true -> coll ∈ collection_names ->
  P (<["_id" := PObjectId (next_oid st)]> (model_dump x)) ->
  exists items,
    mapM expose_id (filter P (collection (snd (create_document coll x st)) coll))
    = Ok items
    /\ returned st (model_dump x) ∈ items.
Proof.
  intros Hst Hc HP.
  pose proof (well_stored_create coll x st plain_dump Hst) as Hst'.
  pose proof (well_stored_collection _ _ Hst' Hc) as Hall.
  eexists. split.
  - apply mapM_expose_id, Forall_list_filter, Hall.
  - apply list_elem_of_fmap.
    exists (<["_id" := PObjectId (next_oid st)]> (model_dump x)).
    split; [unfold returned; rewrite external_new; reflexivity|].
    apply list_elem_of_filter. split; [exact HP|].
    rewrite collection_create, decide_True by reflexivity.
    apply elem_of_app. right. left.
Qed.

End RoundTrip.

Section RoundTripListings.

Context {T : Type} `{BaseModel T}.
Hypothesis plain_dump : dumps_plain T.

Lemma created_is_listed coll h (x : T) (d : string) st :
  (coll, h) ∈ dated_listings -> well_stored st = true ->
  model_dump x !! "date" = Some (PStr d) ->
  listed_after h st (snd (create_document coll x st)) d (model_dump x).
Proof.
  intros Hin Hst Hdate.
  assert (Hc : coll ∈ collection_names) by (dated_cases Hin; member).
  assert (Hd : str_field "date" (<["_id" := PObjectId (next_oid st)]> (model_dump x))
               = Some d).
  { rewrite (new_field plain_dump). unfold str_field. rewrite Hdate. reflexivity. }
  repeat split.
  - intros Hne month. rewrite (dated_by_date _ _ _ _ _ Hin Hne).
    apply (selected_new plain_dump); assumption.
  - intros date month Hdt Hm. rewrite (dated_unfiltered _ _ _ _ _ Hin Hdt Hm).
    rewrite <- (filter_all (collection _ coll)).
    apply (selected_new plain_dump (fun _ => True)); [assumption..|exact I].
  - intros date m r Hdt Hm Hr Hs. rewrite (dated_by_month _ _ _ _ _ Hin Hdt Hm).
    rewrite (get_documents_regex _ _ _ _ _ _ Hr). cbn [cap mbind result_bind].
    apply (selected_new plain_dump
             (fun x => from_option (Regex.search r) false (str_field "date" x) = true));
      [assumption..|].
    rewrite Hd. exact Hs.
Qed.

End RoundTripListings.

Section Conversions.

Context `{L : LaxMode}.

Lemma at_loc_valid {A : Type} i (c : checked A) a : at_loc i c = Valid a -> c = Valid a.
Proof. destruct c; [intros H; exact H | discriminate]. Qed.

Lemma converted_valid {A : Type} (o : option A) a : converted o = Valid a -> o = Some a.
Proof. destruct o; [intros [= ->]; reflexivity | discriminate]. Qed.

Lemma as_float_stored v f : as_float v = Valid f -> stored_float v f.
Proof.
  destruct v; try discriminate; cbn [as_float].
  - intros Hc. right. right. apply converted_valid, Hc.
  - destruct (is_finite (float_of_Z n)) eqn:Hfin.
    + intros [= <-]. right. left. exists n. repeat split. exact Hfin.
    + intros Hc. right. right. apply converted_valid, Hc.
  - intros [= ->]. left. reflexivity.
  - intros Hc. right. right. apply converted_valid, Hc.
Qed.

Lemma as_str_stored i v a :
  at_loc i (as_str v) = Valid a -> stored_scalar AStr v (PStr a).
Proof.
  destruct v; try discriminate. intros [= ->]. split; [exists a|]; reflexivity.
Qed.

Lemma as_optional_str_stored i v a :
  at_loc i (as_optional as_str v) = Valid a -> stored_scalar AOptStr v (dump_optional PStr a).
Proof.
  destruct v; try discriminate; intros [= <-].
  - split; [left|]; reflexivity.
  - split; [right; exists s|]; reflexivity.
Qed.

Lemma as_float_field i v a :
  at_loc i (as_float v) = Valid a -> stored_scalar AFloat v (PFloat a).
Proof.
  intros Hv. apply at_loc_valid, as_float_stored in Hv.
  exists a. split; [reflexivity | exact Hv].
Qed.

Lemma as_number_field i v a :
  at_loc i (Valid NFloat <*> as_float v) = Valid a -> stored_scalar AFloat v (dump_num a).
Proof.
  intros Hv. apply at_loc_valid in Hv.
  destruct (as_float v) as [f|] eqn:Hf; [|discriminate].
  injection Hv as <-. apply as_float_stored in Hf.
  exists f. split; [reflexivity | exact Hf].
Qed.

Lemma as_optional_float_field i v a :
  at_loc i (as_optional as_float v) = Valid a ->
  stored_scalar AOptFloat v (dump_optional PFloat a).
Proof.
  intros Hv. apply at_loc_valid in Hv.
  assert (Hcases : (v = PNone /\ a = None)
                   \/ Valid (@Some spec_float) <*> as_float v = Valid a).
  { destruct v; try (right; exact Hv). left. injection Hv as <-. split; reflexivity. }
  destruct Hcases as [[-> ->] | Hs]; [left; split; reflexivity|].
  destruct (as_float v) as [f|] eqn:Hf; [|discriminate].
  injection Hs as <-. apply as_float_stored in Hf.
  right. exists f. split; [reflexivity | exact Hf].
Qed.

Lemma as_font_size_field i v a :
  at_loc i (constrained 8 64 (as_int v)) = Valid a -> stored_scalar AInt v (PInt a).
Proof.
  intros Hv. apply at_loc_valid in Hv. unfold constrained in Hv.
  destruct (as_int v) as [n|] eqn:Hn; [|discriminate].
  destruct (negb (8 <=? n)%Z); [discriminate|].
  destruct (negb (n <=? 64)%Z); [discriminate|].
  injection Hv as <-. exists n. split; [reflexivity|].
  destruct v; try discriminate; cbn [as_int] in Hn.
  - right. apply converted_valid, Hn.
  - left. congruence.
  - right. apply converted_valid, Hn.
  - right. apply converted_valid, Hn.
Qed.

End Conversions.

(** One field of a schema: the validated field is in the context, as an
    equation on [required] or [defaulted]. *)
Ltac field_stored :=
  cbn [fst snd];
  match goal with
  | Hf : required ?d ?k _ = Valid _ |- context [?d !! ?k] =>
      unfold required in Hf; destruct (d !! k) eqn:?; [|discriminate Hf];
      eexists; split; [reflexivity|];
      first [ apply as_str_stored in Hf; exact Hf
            | apply as_float_field in Hf; exact Hf ]
  | Hf : defaulted ?d ?k _ _ = Valid _ |- context [?d !! ?k] =>
      unfold defaulted in Hf; destruct (d !! k) eqn:?;
      [ eexists; split; [reflexivity|];
        first [ apply as_str_stored in Hf; exact Hf
              | apply as_optional_str_stored in Hf; exact Hf
              | apply as_float_field in Hf; exact Hf
              | apply as_optional_float_field in Hf; exact Hf
              | apply as_number_field in Hf; exact Hf
              | apply as_font_size_field in Hf; exact Hf ]
      | injection Hf as <-; eexists; split; reflexivity ]
  end.

Ltac unfold_dumps :=
  unfold model_dump, Journal_model, JournalPage_model, CalendarEvent_model,
    Sticker_model, Drawing_model, Journal.model_dump, JournalPage.model_dump,
    CalendarEvent.model_dump, Sticker.model_dump, Drawing.model_dump,
    StrokePoint.model_dump;
  cbn [Journal.title Journal.cover_style Journal.paper_style Journal.owner
       JournalPage.journal_id JournalPage.date JournalPage.content JournalPage.font
       JournalPage.font_size JournalPage.color JournalPage.alignment
       JournalPage.background
       CalendarEvent.date CalendarEvent.title CalendarEvent.highlight
       CalendarEvent.emoji
       Sticker.date Sticker.category Sticker.label Sticker.x Sticker.y Sticker.size
       Drawing.date Drawing.tool Drawing.color Drawing.size Drawing.points
       StrokePoint.x StrokePoint.y StrokePoint.p StrokePoint.t_].

Ltac conformance Hv :=
  valid_fields Hv; unfold_dumps;
  split; [reflexivity|];
  repeat (apply Forall_cons; split; [field_stored|]); apply Forall_nil_2.

Section Conformance.

Context `{L : LaxMode}.

Lemma Journal_conforms body j :
  Journal.validate body = Valid j -> conforms Journal_schema body (model_dump j).
Proof.
  destruct body; try discriminate. intros Hv. exists d. split; [reflexivity|].
  unfold Journal.validate in Hv. conformance Hv.
Qed.

Lemma JournalPage_conforms body p :
  JournalPage.validate body = Valid p -> conforms JournalPage_schema body (model_dump p).
Proof.
  destruct body; try discriminate. intros Hv. exists d. split; [reflexivity|].
  unfold JournalPage.validate in Hv. conformance Hv.
Qed.

Lemma CalendarEvent_conforms body e :
  CalendarEvent.validate body = Valid e ->
  conforms CalendarEvent_schema body (model_dump e).
Proof.
  destruct body; try discriminate. intros Hv. exists d. split; [reflexivity|].
  unfold CalendarEvent.validate in Hv. conformance Hv.
Qed.

Lemma Sticker_conforms body s :
  Sticker.validate body = Valid s -> conforms Sticker_schema body (model_dump s).
Proof.
  destruct body; try discriminate. intros Hv. exists d. split; [reflexivity|].
  unfold Sticker.validate in Hv. conformance Hv.
Qed.

Lemma StrokePoint_conforms v q :
  StrokePoint.validate v = Valid q ->
  conforms_with stored_scalar StrokePoint_schema v (StrokePoint.model_dump q).
Proof.
  destruct v; try discriminate. intros Hv. exists d. split; [reflexivity|].
  unfold StrokePoint.validate in Hv. conformance Hv.
Qed.

Lemma points_conform i l qs :
  validate_points i l = Valid qs ->
  Forall2 (fun x y => exists q, y = PDict q
                                /\ conforms_with stored_scalar StrokePoint_schema x q)
          l (map (fun q => PDict (StrokePoint.model_dump q)) qs).
Proof.
  revert i qs. induction l as [|v l IH]; intros i qs; cbn [validate_points].
  - intros [= <-]. constructor.
  - intros Hv. valid_fields Hv. cbn [map]. constructor.
    + eexists. split; [reflexivity|].
      apply StrokePoint_conforms, (at_loc_valid (Index i)). assumption.
    + apply (IH (S i)). assumption.
Qed.

Lemma as_points_field i v a :
  at_loc i (as_points v) = Valid a ->
  stored_for APoints v (PList (map (fun q => PDict (StrokePoint.model_dump q)) a)).
Proof.
  intros Hv. apply at_loc_valid in Hv. destruct v; try discriminate.
  cbn [as_points] in Hv. exists l. eexists. split; [reflexivity|].
  split; [reflexivity|]. apply (points_conform 0), Hv.
Qed.

Lemma Drawing_conforms body g :
  Drawing.validate body = Valid g -> conforms Drawing_schema body (model_dump g).
Proof.
  destruct body; try discriminate. intros Hv. exists d. split; [reflexivity|].
  unfold Drawing.validate in Hv. valid_fields Hv. unfold_dumps.
  split; [reflexivity|].
  do 4 (apply Forall_cons; split; [field_stored|]).
  apply Forall_cons. split; [|apply Forall_nil_2]. cbn [fst snd].
  match goal with
  | Hf : defaulted d "points" _ _ = Valid _ |- _ =>
      unfold defaulted in Hf; destruct (d !! "points") eqn:?;
      [ eexists; split; [reflexivity | apply as_points_field in Hf; exact Hf]
      | injection Hf as <-; eexists; split; reflexivity ]
  end.
Qed.

End Conformance.

(** The claim C7 as it is worded does not hold for journal pages, whatever
    lax mode converts: after a second page is created for the same journal
    and date, the lookup by that journal and date returns the first page,
    not the one just created. *)
Lemma create_then_read_counterexample :
  ~ (exists L : LaxMode,
       forall st body p,
         well_stored st = true ->
         JournalPage.validate body = Valid p ->
         get_page (JournalPage.journal_id p) (JournalPage.date p)
           (snd (post_pages body st))
         = Ok (returned st (model_dump p))).
Proof.
  intros [L Hclaim].
  assert (Hp : JournalPage.validate (page "j1" "2024-05-01" "new")
               = Valid {| JournalPage.journal_id := "j1";
                          JournalPage.date := "2024-05-01";
                          JournalPage.content := "new";
                          JournalPage.font := "Inter";
                          JournalPage.font_size := 16;
                          JournalPage.color := "#1f2937";
                          JournalPage.alignment := "left";
                          JournalPage.background := None |}) by reflexivity.
  specialize (Hclaim one_page (page "j1" "2024-05-01" "new") _ eq_refl Hp).
  apply (f_equal (fmap (str_field "content"))) in Hclaim.
  vm_compute in Hclaim. discriminate Hclaim.
Qed.

(** C7, amended: a valid input of any of the five kinds is stored as its
    validated form. That form has exactly the declared fields; a field that
    the input supplies holds the supplied value (a string or a null as it
    is; for an [int] field the integer, or what lax mode converts the value
    to; for a [float] field the float, the float of a supplied integer, or
    what lax mode converts the value to; the points of a drawing one by one,
    in order, each in the same way); a field that the input does not supply
    holds its declared default. Over a well-formed store, a calendar event,
    a sticker or a drawing just created is returned, as that form with its
    new identifier under [id], by its listing under its exact date (when
    that is not empty), under no filter, and under every month pattern of
    the modelled fragment that matches its date. A journal just created is
    returned by the journal list when the collection held fewer journals
    than the limit; when it held at least as many, the list is what it was
    before the creation. A page just created is returned by the page lookup
    when no earlier page has its journal and date; when one has, the lookup
    returns the first such earlier page, in its external form. *)
Theorem create_then_read `{L : LaxMode} st :
  well_stored st = true ->
  (forall body e, CalendarEvent.validate body = Valid e ->
     conforms CalendarEvent_schema body (model_dump e)
     /\ listed_after list_events st (snd (post_events body st))
          (CalendarEvent.date e) (model_dump e))
  /\ (forall body s, Sticker.validate body = Valid s ->
      conforms Sticker_schema body (model_dump s)
      /\ listed_after list_stickers st (snd (post_stickers body st))
           (Sticker.date s) (model_dump s))
  /\ (forall body g, Drawing.validate body = Valid g ->
      conforms Drawing_schema body (model_dump g)
      /\ listed_after list_drawings st (snd (post_drawings body st))
           (Drawing.date g) (model_dump g))
  /\ (forall body j limit, Journal.validate body = Valid j ->
      conforms Journal_schema body (model_dump j)
      /\ ((1 <= default 50 limit <= 200)%Z ->
          ((Z.of_nat (length (collection st "journal")) < default 50 limit)%Z ->
           exists items,
             list_journals limit (snd (post_journals body st)) = Ok items
             /\ returned st (model_dump j) ∈ items)
          /\ ((default 50 limit <= Z.of_nat (length (collection st "journal")))%Z ->
              list_journals limit (snd (post_journals body st))
              = list_journals limit st)))
  /\ (forall body p, JournalPage.validate body = Valid p ->
      let matching := fun x : doc =>
        str_field "journal_id" x = Some (JournalPage.journal_id p)
        /\ str_field "date" x = Some (JournalPage.date p) in
      conforms JournalPage_schema body (model_dump p)
      /\ ((forall x, x ∈ collection st "journalpage" -> ~ matching x) ->
          get_page (JournalPage.journal_id p) (JournalPage.date p)
            (snd (post_pages body st))
          = Ok (returned st (model_dump p)))
      /\ (forall before q after,
            collection st "journalpage" = before ++ q :: after ->
            (forall x, x ∈ before -> ~ matching x) -> matching q ->
            get_page (JournalPage.journal_id p) (JournalPage.date p)
              (snd (post_pages body st))
            = Ok (external q))).
Proof.
  intros Hst. split; [|split; [|split; [|split]]].
  - intros body e Hv. split; [apply CalendarEvent_conforms, Hv|].
    unfold post_events, with_body. rewrite Hv. cbn [at_loc to_result].
    apply (created_is_listed CalendarEvent_plain "calendarevent");
      [member | exact Hst | reflexivity].
  - intros body s Hv. split; [apply Sticker_conforms, Hv|].
    unfold post_stickers, with_body. rewrite Hv. cbn [at_loc to_result].
    apply (created_is_listed Sticker_plain "sticker");
      [member | exact Hst | reflexivity].
  - intros body g Hv. split; [apply Drawing_conforms, Hv|].
    unfold post_drawings, with_body. rewrite Hv. cbn [at_loc to_result].
    apply (created_is_listed Drawing_plain "drawing");
      [member | exact Hst | reflexivity].
  - intros body j limit Hv. split; [apply Journal_conforms, Hv|].
    intros Hrange.
    unfold post_journals, with_body. rewrite Hv. cbn [at_loc to_result].
    change (snd (let '(r, st') := create_journal j st in (Ok r, st')))
      with (snd (create_document "journal" j st)).
    unfold list_journals.
    assert (Hin : negb ((1 <=? default 50%Z limit)%Z && (default 50%Z limit <=? 200)%Z)
                  = false)
      by (apply negb_false_iff, andb_true_iff; split; apply Z.leb_le; apply Hrange).
    rewrite Hin, !get_documents_all. cbn [cap mbind result_bind].
    rewrite collection_create, decide_True by reflexivity.
    split.
    + intros Hroom. rewrite <- (filter_all (take _ _)).
      rewrite take_ge by (rewrite length_app; cbn [length]; lia).
      pose proof (selected_new Journal_plain (fun _ => True) "journal" j st Hst
                    ltac:(member) I) as Hsel.
      rewrite collection_create, decide_True in Hsel by reflexivity. exact Hsel.
    + intros Hfull. rewrite take_app_le by lia. reflexivity.
  - intros body p Hv matching. split; [apply JournalPage_conforms, Hv|].
    unfold post_pages, with_body. rewrite Hv. cbn [at_loc to_result].
    change (snd (let '(r, st') := create_page p st in (Ok r, st')))
      with (snd (create_document "journalpage" p st)).
    rewrite get_page_first, collection_create, decide_True by reflexivity.
    fold matching. split.
    + intros Hfresh. rewrite filter_first; [| exact Hfresh | ].
      * unfold returned. rewrite <- (external_new JournalPage_plain).
        apply expose_id_stored. destruct (JournalPage_plain p).
        apply stored_ok_new; assumption.
      * unfold matching. rewrite !(new_field JournalPage_plain). split; reflexivity.
    + intros before q after Hcoll Hbefore Hq.
      rewrite Hcoll, <- app_assoc, <- app_comm_cons.
      rewrite (filter_first matching before _ q Hbefore Hq).
      apply expose_id_stored.
      pose proof (well_stored_collection st "journalpage" Hst ltac:(member)) as Hall.
      rewrite Forall_forall in Hall. apply Hall. rewrite Hcoll.
      apply elem_of_app. right. left.
Qed.

Lemma create_then_read_witness :
  exists items,
    list_events (Some "2024-05-01") None
      (snd (post_events (event "2024-05-01" "Labour Day") two_events)) = Ok items
    /\ returned two_events
         (model_dump {| CalendarEvent.date := "2024-05-01";
                        CalendarEvent.title := "Labour Day";
                        CalendarEvent.highlight := None;
                        CalendarEvent.emoji := None |}) ∈ items.
Proof.
  destruct (create_then_read (L := strict_mode) two_events eq_refl) as (Hevents & _).
  assert (Hv : CalendarEvent.validate (event "2024-05-01" "Labour Day")
               = Valid {| CalendarEvent.date := "2024-05-01";
                          CalendarEvent.title := "Labour Day";
                          CalendarEvent.highlight := None;
                          CalendarEvent.emoji := None |}) by reflexivity.
  destruct (Hevents _ _ Hv) as (_ & Hdate & _).
  apply Hdate. discriminate.
Defined.

(** ** Further properties of validation *)

Section Rejection.

Lemma required_missing {A : Type} (d : doc) k (conv : pyval -> checked A) :
  d !! k = None -> reports ([Key k], Missing) (required d k conv).
Proof.
  intros Hk. unfold required. rewrite Hk. eexists. split; [reflexivity | left].
Qed.

Lemma required_not_str (d : doc) k v :
  d !! k = Some v -> (forall s, v <> PStr s) ->
  reports ([Key k], WrongType) (required d k as_str).
Proof.
  intros Hk Hv. unfold required. rewrite Hk.
  destruct v; cbn; try (eexists; split; [reflexivity | left]).
  destruct (Hv s eq_refl).
Qed.

Lemma defaulted_not_str (d : doc) k v a :
  d !! k = Some v -> (forall s, v <> PStr s) ->
  reports ([Key k], WrongType) (defaulted d k as_str a).
Proof.
  intros Hk Hv. unfold defaulted. rewrite Hk.
  destruct v; cbn; try (eexists; split; [reflexivity | left]).
  destruct (Hv s eq_refl).
Qed.

Lemma defaulted_not_optional_str (d : doc) k v a :
  d !! k = Some v -> v <> PNone -> (forall s, v <> PStr s) ->
  reports ([Key k], WrongType) (defaulted d k (as_optional as_str) a).
Proof.
  intros Hk Hn Hv. unfold defaulted. rewrite Hk.
  destruct v; cbn; try (eexists; split; [reflexivity | left]);
    [congruence | destruct (Hv s eq_refl)].
Qed.

End Rejection.

(** Go to the field of a model that a violation comes from. *)
Ltac at_field H :=
  solve [ repeat first [ apply reports_ap_r; exact H | apply reports_ap_l ] ].

Ltac in_cases H :=
  repeat (apply elem_of_cons in H; destruct H as [->|H]);
  [.. | apply elem_of_nil in H; contradiction].

(** X1: a key that is not a declared field of the model has no effect on
    validation, whatever its value: the body validates (or fails) exactly as
    it does without it. *)
Theorem undeclared_fields_are_ignored `{L : LaxMode} (d : doc) (k : string) (v : pyval) :
  (k ∉ Journal_fields ->
   Journal.validate (PDict (<[k := v]> d)) = Journal.validate (PDict d))
  /\ (k ∉ JournalPage_fields ->
      JournalPage.validate (PDict (<[k := v]> d)) = JournalPage.validate (PDict d))
  /\ (k ∉ CalendarEvent_fields ->
      CalendarEvent.validate (PDict (<[k := v]> d)) = CalendarEvent.validate (PDict d))
  /\ (k ∉ Sticker_fields ->
      Sticker.validate (PDict (<[k := v]> d)) = Sticker.validate (PDict d))
  /\ (k ∉ Drawing_fields ->
      Drawing.validate (PDict (<[k := v]> d)) = Drawing.validate (PDict d)).
Proof.
  repeat split; intros Hk;
    unfold Journal.validate, JournalPage.validate, CalendarEvent.validate,
      Sticker.validate, Drawing.validate;
    rewrite ?required_insert_ne, ?defaulted_insert_ne
      by (intros ->; apply Hk; member);
    reflexivity.
Qed.

Lemma undeclared_fields_are_ignored_witness :
  CalendarEvent.validate (PDict (<["colour" := PInt 3]> {[ "date" := PStr "2024-05-01" ]}))
  = CalendarEvent.validate (PDict {[ "date" := PStr "2024-05-01" ]}).
Proof.
  apply (undeclared_fields_are_ignored (L := strict_mode) _ "colour" (PInt 3)).
  unfold CalendarEvent_fields. intros Hin.
  repeat (apply elem_of_cons in Hin; destruct Hin as [Hin|Hin]; [discriminate Hin|]).
  apply elem_of_nil in Hin. exact Hin.
Defined.

(** X2: a body that lacks a required field fails validation, whatever else
    it holds and whatever lax mode converts: a list of violations comes
    back, and the missing field is among them. *)
Theorem missing_required_field_is_rejected `{L : LaxMode} (d : doc) :
  (d !! "title" = None ->
   reports ([Key "title"], Missing) (Journal.validate (PDict d)))
  /\ (forall k, k ∈ ["journal_id"; "date"] -> d !! k = None ->
      reports ([Key k], Missing) (JournalPage.validate (PDict d)))
  /\ (forall k, k ∈ ["date"; "title"] -> d !! k = None ->
      reports ([Key k], Missing) (CalendarEvent.validate (PDict d)))
  /\ (forall k, k ∈ ["date"; "label"] -> d !! k = None ->
      reports ([Key k], Missing) (Sticker.validate (PDict d)))
  /\ (d !! "date" = None ->
      reports ([Key "date"], Missing) (Drawing.validate (PDict d))).
Proof.
  split; [|split; [|split; [|split]]].
  - intros Hk.
    pose proof (required_missing d "title" as_str Hk) as Hr.
    unfold Journal.validate. at_field Hr.
  - intros k Hin Hk. in_cases Hin;
      pose proof (required_missing d _ as_str Hk) as Hr;
      unfold JournalPage.validate; at_field Hr.
  - intros k Hin Hk. in_cases Hin;
      pose proof (required_missing d _ as_str Hk) as Hr;
      unfold CalendarEvent.validate; at_field Hr.
  - intros k Hin Hk. in_cases Hin;
      pose proof (required_missing d _ as_str Hk) as Hr;
      unfold Sticker.validate; at_field Hr.
  - intros Hk. pose proof (required_missing d "date" as_str Hk) as Hr.
    unfold Drawing.validate. at_field Hr.
Qed.

Lemma missing_required_field_is_rejected_witness :
  reports ([Key "date"], Missing)
    (CalendarEvent.validate (PDict {[ "emoji" := PInt 1 ]}))
  /\ reports ([Key "label"], Missing)
       (Sticker.validate (L := strict_mode) (PDict {[ "date" := PStr "2024-05-01" ]})).
Proof.
  split.
  - destruct (missing_required_field_is_rejected (L := strict_mode) {[ "emoji" := PInt 1 ]})
      as (_ & _ & Hevent & _).
    apply Hevent; [member | reflexivity].
  - destruct (missing_required_field_is_rejected (L := strict_mode)
                {[ "date" := PStr "2024-05-01" ]})
      as (_ & _ & _ & Hsticker & _).
    apply Hsticker; [member | reflexivity].
Defined.

(** X3: a field annotated [str] that is given anything but a string, and a
    field annotated [Optional[str]] that is given anything but a string or
    null, makes validation fail, whatever lax mode converts: a list of
    violations comes back, with a wrong-type violation at that field. *)
Theorem non_string_is_rejected `{L : LaxMode} (d : doc) (k : string) (v : pyval) :
  d !! k = Some v -> (forall s, v <> PStr s) ->
  (k ∈ ["title"; "cover_style"; "paper_style"] ->
   reports ([Key k], WrongType) (Journal.validate (PDict d)))
  /\ (k = "owner" -> v <> PNone ->
      reports ([Key k], WrongType) (Journal.validate (PDict d)))
  /\ (k ∈ ["journal_id"; "date"; "content"; "font"; "color"; "alignment"] ->
      reports ([Key k], WrongType) (JournalPage.validate (PDict d)))
  /\ (k = "background" -> v <> PNone ->
      reports ([Key k], WrongType) (JournalPage.validate (PDict d)))
  /\ (k ∈ ["date"; "title"] ->
      reports ([Key k], WrongType) (CalendarEvent.validate (PDict d)))
  /\ (k ∈ ["highlight"; "emoji"] -> v <> PNone ->
      reports ([Key k], WrongType) (CalendarEvent.validate (PDict d)))
  /\ (k ∈ ["date"; "category"; "label"] ->
      reports ([Key k], WrongType) (Sticker.validate (PDict d)))
  /\ (k ∈ ["date"; "tool"; "color"] ->
      reports ([Key k], WrongType) (Drawing.validate (PDict d))).
Proof.
  intros Hk Hv.
  assert (Hreq := fun k' (E : k = k') =>
            required_not_str d k' v (eq_ind _ (fun x => d !! x = Some v) Hk _ E) Hv).
  assert (Hdef := fun k' (E : k = k') a =>
            defaulted_not_str d k' v a (eq_ind _ (fun x => d !! x = Some v) Hk _ E) Hv).
  assert (Hopt := fun k' (E : k = k') (Hn : v <> PNone) a =>
            defaulted_not_optional_str d k' v a
              (eq_ind _ (fun x => d !! x = Some v) Hk _ E) Hn Hv).
  repeat split.
  - intros Hin. unfold Journal.validate. in_cases Hin;
      first [ pose proof (Hreq _ eq_refl) as Hr; at_field Hr
            | pose proof (Hdef _ eq_refl) as Hr; at_field (Hr "pastel-pink")
            | pose proof (Hdef _ eq_refl) as Hr; at_field (Hr "dotted") ].
  - intros E Hn. subst k.
    unfold Journal.validate. pose proof (Hopt _ eq_refl Hn None) as Hr. at_field Hr.
  - intros Hin. unfold JournalPage.validate. in_cases Hin;
      first [ pose proof (Hreq _ eq_refl) as Hr; at_field Hr
            | pose proof (Hdef _ eq_refl) as Hr;
              first [ at_field (Hr "") | at_field (Hr "Inter")
                    | at_field (Hr "#1f2937") | at_field (Hr "left") ] ].
  - intros E Hn. subst k.
    unfold JournalPage.validate. pose proof (Hopt _ eq_refl Hn None) as Hr. at_field Hr.
  - intros Hin. unfold CalendarEvent.validate. in_cases Hin;
      pose proof (Hreq _ eq_refl) as Hr; at_field Hr.
  - intros Hin Hn. unfold CalendarEvent.validate. in_cases Hin;
      pose proof (Hopt _ eq_refl Hn None) as Hr; at_field Hr.
  - intros Hin. unfold Sticker.validate. in_cases Hin;
      first [ pose proof (Hreq _ eq_refl) as Hr; at_field Hr
            | pose proof (Hdef _ eq_refl) as Hr; at_field (Hr "decor") ].
  - intros Hin. unfold Drawing.validate. in_cases Hin;
      first [ pose proof (Hreq _ eq_refl) as Hr; at_field Hr
            | pose proof (Hdef _ eq_refl) as Hr;
              first [ at_field (Hr "pen") | at_field (Hr "#111827") ] ].
Qed.

Lemma non_string_is_rejected_witness :
  reports ([Key "title"], WrongType)
    (Journal.validate (PDict {[ "title" := PInt 2024 ]}))
  /\ reports ([Key "tool"], WrongType)
       (Drawing.validate (L := strict_mode)
          (PDict {[ "date" := PStr "2024-05-01"; "tool" := PBool true ]})).
Proof.
  split.
  - destruct (non_string_is_rejected (L := strict_mode)
                {[ "title" := PInt 2024 ]} "title" (PInt 2024))
      as (Htitle & _).
    + reflexivity.
    + discriminate.
    + apply Htitle. member.
  - destruct (non_string_is_rejected (L := strict_mode)
                {[ "date" := PStr "2024-05-01"; "tool" := PBool true ]}
                "tool" (PBool true))
      as (_ & _ & _ & _ & _ & _ & _ & Hdrawing).
    + reflexivity.
    + discriminate.
    + apply Hdrawing. member.
Defined.

Ltac use_valid_fields :=
  repeat match goal with
         | H : _ = Valid _ |- _ => first [rewrite H | idtac]; clear H
         end.

(** X4: with the other fields valid, an integer [font_size] is accepted
    exactly when it lies between 8 and 64, and is then kept as it is;
    outside that range the out-of-range violation at [font_size] is the only
    one reported; and a body without [font_size] gets 16. *)
Theorem font_size_accepted_exactly `{L : LaxMode} (d : doc) (n : Z) (p : JournalPage.t) :
  JournalPage.validate (PDict (delete "font_size" d)) = Valid p ->
  JournalPage.font_size p = 16%Z
  /\ JournalPage.validate (PDict (<["font_size" := PInt n]> d)) =
     if ((8 <=? n) && (n <=? 64))%Z
     then Valid {| JournalPage.journal_id := JournalPage.journal_id p;
                   JournalPage.date := JournalPage.date p;
                   JournalPage.content := JournalPage.content p;
                   JournalPage.font := JournalPage.font p;
                   JournalPage.font_size := n;
                   JournalPage.color := JournalPage.color p;
                   JournalPage.alignment := JournalPage.alignment p;
                   JournalPage.background := JournalPage.background p |}
     else Invalid [([Key "font_size"], OutOfRange)].
Proof.
  intros Hp. unfold JournalPage.validate in *.
  rewrite !required_delete_ne, defaulted_delete, !defaulted_delete_ne in Hp
    by discriminate.
  rewrite !required_insert_ne, defaulted_insert, !defaulted_insert_ne by discriminate.
  valid_fields Hp.
  match goal with H : Valid 16%Z = Valid _ |- _ => injection H as <- end.
  split; [reflexivity|].
  use_valid_fields. cbn [as_int constrained].
  destruct (8 <=? n)%Z; [destruct (n <=? 64)%Z|]; reflexivity.
Qed.

Lemma font_size_accepted_exactly_witness :
  JournalPage.validate (L := strict_mode)
    (PDict (<["font_size" := PInt 65]> {[ "journal_id" := PStr "j1"; "date" := PStr "2024-05-01" ]}))
  = Invalid [([Key "font_size"], OutOfRange)]
  /\ exists p,
       JournalPage.validate (L := strict_mode)
         (PDict (<["font_size" := PInt 30]> {[ "journal_id" := PStr "j1"; "date" := PStr "2024-05-01" ]}))
       = Valid p /\ JournalPage.font_size p = 30%Z.
Proof.
  assert (Hp : exists p, JournalPage.validate (L := strict_mode)
                 (PDict (delete "font_size" {[ "journal_id" := PStr "j1"; "date" := PStr "2024-05-01" ]}))
               = Valid p) by (eexists; reflexivity).
  destruct Hp as [p Hp].
  split.
  - destruct (font_size_accepted_exactly (L := strict_mode) _ 65 p Hp) as [_ ->].
    reflexivity.
  - destruct (font_size_accepted_exactly (L := strict_mode) _ 30 p Hp) as [_ H30].
    eexists. split; [exact H30 | reflexivity].
Defined.

(** X5: the ranges that the field descriptions mention are not enforced. In
    a valid Sticker body [x], [y] and [size] can be replaced by any float
    (negative, above 1, infinite, not a number), in a valid stroke point the
    pressure [p] as well, and in a valid JournalPage body [alignment] by any
    string: the body stays valid and the value is stored as given. *)
Theorem documented_ranges_are_not_enforced `{L : LaxMode}
    (d : doc) (f : spec_float) (a : string) :
  (forall s, Sticker.validate (PDict d) = Valid s ->
     Sticker.validate (PDict (<["x" := PFloat f]> d)) =
       Valid {| Sticker.date := Sticker.date s; Sticker.category := Sticker.category s;
                Sticker.label := Sticker.label s; Sticker.x := NFloat f;
                Sticker.y := Sticker.y s; Sticker.size := Sticker.size s |}
     /\ Sticker.validate (PDict (<["y" := PFloat f]> d)) =
       Valid {| Sticker.date := Sticker.date s; Sticker.category := Sticker.category s;
                Sticker.label := Sticker.label s; Sticker.x := Sticker.x s;
                Sticker.y := NFloat f; Sticker.size := Sticker.size s |}
     /\ Sticker.validate (PDict (<["size" := PFloat f]> d)) =
       Valid {| Sticker.date := Sticker.date s; Sticker.category := Sticker.category s;
                Sticker.label := Sticker.label s; Sticker.x := Sticker.x s;
                Sticker.y := Sticker.y s; Sticker.size := f |})
  /\ (forall q, StrokePoint.validate (PDict d) = Valid q ->
      StrokePoint.validate (PDict (<["p" := PFloat f]> d)) =
        Valid {| StrokePoint.x := StrokePoint.x q; StrokePoint.y := StrokePoint.y q;
                 StrokePoint.p := Some f; StrokePoint.t_ := StrokePoint.t_ q |})
  /\ (forall p, JournalPage.validate (PDict d) = Valid p ->
      JournalPage.validate (PDict (<["alignment" := PStr a]> d)) =
        Valid {| JournalPage.journal_id := JournalPage.journal_id p;
                 JournalPage.date := JournalPage.date p;
                 JournalPage.content := JournalPage.content p;
                 JournalPage.font := JournalPage.font p;
                 JournalPage.font_size := JournalPage.font_size p;
                 JournalPage.color := JournalPage.color p;
                 JournalPage.alignment := a;
                 JournalPage.background := JournalPage.background p |}).
Proof.
  split; [|split].
  - intros s Hs. unfold Sticker.validate in *. valid_fields Hs.
    repeat split;
      rewrite ?required_insert_ne, ?defaulted_insert, ?defaulted_insert_ne by discriminate;
      use_valid_fields; reflexivity.
  - intros q Hq. unfold StrokePoint.validate in *. valid_fields Hq.
    rewrite ?required_insert_ne, ?defaulted_insert, ?defaulted_insert_ne by discriminate.
    use_valid_fields. reflexivity.
  - intros p Hp. unfold JournalPage.validate in *. valid_fields Hp.
    rewrite ?required_insert_ne, ?defaulted_insert, ?defaulted_insert_ne by discriminate.
    use_valid_fields. reflexivity.
Qed.

Lemma documented_ranges_are_not_enforced_witness :
  exists s,
    Sticker.validate (L := strict_mode)
      (PDict (<["x" := PFloat (float_of_Z (-7))]> {[ "date" := PStr "2024-05-01"; "label" := PStr "star" ]}))
    = Valid s /\ Sticker.x s = NFloat (float_of_Z (-7)).
Proof.
  assert (Hs : exists s, Sticker.validate (L := strict_mode)
                 (PDict {[ "date" := PStr "2024-05-01"; "label" := PStr "star" ]}) = Valid s)
    by (eexists; reflexivity).
  destruct Hs as [s Hs].
  destruct (documented_ranges_are_not_enforced (L := strict_mode)
              {[ "date" := PStr "2024-05-01"; "label" := PStr "star" ]}
              (float_of_Z (-7)) "") as [Hsticker _].
  destruct (Hsticker s Hs) as [Hx _].
  eexists. split; [exact Hx | reflexivity].
Defined.

(** ** Further properties of the handlers *)

Section Requests.

Context `{L : LaxMode}.

Lemma handle_store (r : request) st :
  match dump_of r with
  | Raise e => handle r st = (Raise e, st)
  | Ok dump =>
      handle r st =
      (Ok {[ "id" := PStr (str_oid (next_oid st)) ]},
       {| next_oid := N.succ (next_oid st);
          collections :=
            <[collection_of r :=
                collection st (collection_of r)
                ++ [<["_id" := PObjectId (next_oid st)]> dump]]> (collections st) |})
  end.
Proof.
  destruct r; cbn [handle dump_of collection_of];
    unfold post_journals, post_pages, post_events, post_stickers, post_drawings,
      with_body;
    match goal with |- context [to_result ?c] => destruct (to_result c) end;
    reflexivity.
Qed.

Lemma handle_other_collections (r : request) st c :
  c <> collection_of r -> collection (snd (handle r st)) c = collection st c.
Proof.
  intros Hc. pose proof (handle_store r st) as H.
  destruct (dump_of r); rewrite H; cbn [snd]; [|reflexivity].
  unfold collection at 1. cbn [collections].
  rewrite lookup_insert_ne by congruence. reflexivity.
Qed.

Lemma get_documents_same c filt lim st st' :
  collection st' c = collection st c ->
  get_documents c filt lim st' = get_documents c filt lim st.
Proof. intros Hc. unfold get_documents. rewrite Hc. reflexivity. Qed.

Lemma dump_of_no_id (r : request) (dump : doc) :
  dump_of r = Ok dump -> dump !! "_id" = None.
Proof.
  destruct r as [b|b|b|b|b]; cbn [dump_of].
  - destruct (Journal.validate b) as [m|]; [|discriminate].
    intros [= <-]. apply (Journal_plain m).
  - destruct (JournalPage.validate b) as [m|]; [|discriminate].
    intros [= <-]. apply (JournalPage_plain m).
  - destruct (CalendarEvent.validate b) as [m|]; [|discriminate].
    intros [= <-]. apply (CalendarEvent_plain m).
  - destruct (Sticker.validate b) as [m|]; [|discriminate].
    intros [= <-]. apply (Sticker_plain m).
  - destruct (Drawing.validate b) as [m|]; [|discriminate].
    intros [= <-]. apply (Drawing_plain m).
Qed.

Lemma handle_well_stored (r : request) st :
  well_stored st = true -> well_stored (snd (handle r st)) = true.
Proof.
  intros Hst. destruct (posts_well_stored
    match r with
    | PostJournal b | PostPage b | PostEvent b | PostSticker b | PostDrawing b => b
    end st Hst) as (Hj & Hp & He & Hs & Hd).
  destruct r; assumption.
Qed.

Lemma replay_well_stored (requests : list request) st :
  well_stored st = true -> well_stored (replay requests st) = true.
Proof.
  revert st. induction requests as [|r requests IH]; intros st Hst; [exact Hst|].
  apply IH, handle_well_stored, Hst.
Qed.

End Requests.

(** X7: a POST never changes what is read from the other collections: the
    journal list, the page lookup and the three dated listings answer as
    before unless the request wrote to their own collection, and the day
    aggregate answers as before after a journal is created. *)
Theorem posts_leave_other_reads `{L : LaxMode} (r : request) st :
  (collection_of r <> "journal" ->
   forall limit, list_journals limit (snd (handle r st)) = list_journals limit st)
  /\ (collection_of r <> "journalpage" ->
      forall j d, get_page j d (snd (handle r st)) = get_page j d st)
  /\ (forall coll h, (coll, h) ∈ dated_listings -> collection_of r <> coll ->
      forall date month, h date month (snd (handle r st)) = h date month st)
  /\ (collection_of r = "journal" ->
      forall date jid, get_day date jid (snd (handle r st)) = get_day date jid st).
Proof.
  split; [|split; [|split]].
  - intros Hc limit. unfold list_journals.
    rewrite (get_documents_same "journal" _ _ st (snd (handle r st)));
      [reflexivity | apply handle_other_collections; congruence].
  - intros Hc j d. unfold get_page.
    rewrite (get_documents_same "journalpage" _ _ st (snd (handle r st)));
      [reflexivity | apply handle_other_collections; congruence].
  - intros coll h Hin Hc date month.
    dated_cases Hin; unfold list_events, list_stickers, list_drawings;
      (rewrite (get_documents_same _ _ _ st (snd (handle r st)));
       [reflexivity | apply handle_other_collections; congruence]).
  - intros Hc date jid. unfold get_day.
    rewrite !(get_documents_same _ _ _ st (snd (handle r st)))
      by (apply handle_other_collections; rewrite Hc; discriminate).
    reflexivity.
Qed.

Lemma posts_leave_other_reads_witness :
  get_page "j1" "2024-05-01"
    (snd (handle (L := strict_mode) (PostJournal (PDict {[ "title" := PStr "Diary" ]})) two_pages))
  = get_page "j1" "2024-05-01" two_pages.
Proof.
  destruct (posts_leave_other_reads (L := strict_mode)
              (PostJournal (PDict {[ "title" := PStr "Diary" ]})) two_pages)
    as (_ & Hpage & _).
  apply Hpage. discriminate.
Defined.

(** X8: the journal list. A limit outside 1..200 (the default is 50) is
    refused as a validation error; otherwise, over a well-formed store, the
    answer is the first [limit] journals in storage order, in external form,
    so never more than [limit] records. *)
Theorem list_journals_limit (limit : option Z) st :
  let n := default 50%Z limit in
  ((n < 1 \/ 200 < n)%Z ->
   list_journals limit st = Raise (ValidationError [([Key "query"; Key "limit"], OutOfRange)]))
  /\ ((1 <= n <= 200)%Z -> well_stored st = true ->
      list_journals limit st
      = Ok (external <$> take (Z.to_nat n) (collection st "journal"))
      /\ (Z.of_nat (length (external <$> take (Z.to_nat n) (collection st "journal"))) <= n)%Z).
Proof.
  intros n. unfold list_journals. fold n. split.
  - intros Hout.
    assert (Hb : negb ((1 <=? n)%Z && (n <=? 200)%Z) = true).
    { apply negb_true_iff, andb_false_iff.
      destruct Hout; [left | right]; apply Z.leb_gt; assumption. }
    rewrite Hb. reflexivity.
  - intros Hin Hst.
    assert (Hb : negb ((1 <=? n)%Z && (n <=? 200)%Z) = false)
      by (apply negb_false_iff, andb_true_iff; split; apply Z.leb_le; apply Hin).
    rewrite Hb, get_documents_all. cbn [cap mbind result_bind].
    split.
    + apply mapM_expose_id, Forall_take, well_stored_collection; [exact Hst | member].
    + rewrite length_fmap, length_take. lia.
Qed.

Lemma list_journals_limit_witness :
  list_journals (Some 0%Z) two_events
  = Raise (ValidationError [([Key "query"; Key "limit"], OutOfRange)])
  /\ list_journals (Some 1%Z)
       (replay (L := strict_mode) [PostJournal (PDict {[ "title" := PStr "A" ]});
                PostJournal (PDict {[ "title" := PStr "B" ]});
                PostJournal (PDict {[ "title" := PStr "C" ]})] empty)
     = Ok (external <$> take 1
             (collection (replay (L := strict_mode)
                                 [PostJournal (PDict {[ "title" := PStr "A" ]});
                                  PostJournal (PDict {[ "title" := PStr "B" ]});
                                  PostJournal (PDict {[ "title" := PStr "C" ]})]
                           empty)
                "journal")).
Proof.
  split.
  - apply (list_journals_limit (Some 0%Z) two_events). left. reflexivity.
  - apply (list_journals_limit (Some 1%Z)); [cbn; lia | reflexivity].
Defined.

(** X9: records are listed in the order of their creation. Over a
    well-formed store, the unfiltered listing after a valid POST is the
    listing before it followed by the new record, whose [id] is the
    identifier that the POST answered; the same holds for the journal list
    as long as the limit is not reached. *)
Theorem listing_is_in_creation_order `{L : LaxMode} (r : request) st (dump : doc) :
  well_stored st = true ->
  dump_of r = Ok dump ->
  let st' := snd (handle r st) in
  let new := <["id" := PStr (str_oid (next_oid st))]> dump in
  fst (handle r st) = Ok {[ "id" := PStr (str_oid (next_oid st)) ]}
  /\ (forall coll h, (coll, h) ∈ dated_listings -> collection_of r = coll ->
      exists old, h None None st = Ok old /\ h None None st' = Ok (old ++ [new]))
  /\ (collection_of r = "journal" ->
      forall limit, (1 <= default 50 limit <= 200)%Z ->
        (Z.of_nat (length (collection st "journal")) < default 50 limit)%Z ->
        exists old, list_journals limit st = Ok old
                    /\ list_journals limit st' = Ok (old ++ [new])).
Proof.
  intros Hst Hdump st' new.
  pose proof (handle_store r st) as H. rewrite Hdump in H.
  assert (Hcoll : collection st' (collection_of r)
                  = collection st (collection_of r)
                    ++ [<["_id" := PObjectId (next_oid st)]> dump]).
  { unfold st'. rewrite H. cbn [snd]. unfold collection at 1. cbn [collections].
    rewrite lookup_insert_eq. reflexivity. }
  assert (Hst' : well_stored st' = true) by (apply handle_well_stored, Hst).
  assert (Hnames : collection_of r ∈ collection_names) by (destruct r; cbn; member).
  assert (Hall := well_stored_collection st' _ Hst' Hnames).
  assert (Hold := well_stored_collection st _ Hst Hnames).
  assert (Hnew : external (<["_id" := PObjectId (next_oid st)]> dump) = new).
  { unfold external. rewrite lookup_insert_eq, delete_insert_eq.
    rewrite delete_id by apply (dump_of_no_id r dump Hdump). reflexivity. }
  split; [rewrite H; reflexivity|]. split.
  - intros coll h Hin Hc. exists (external <$> collection st coll).
    rewrite !(dated_unfiltered _ _ _ _ _ Hin) by reflexivity.
    rewrite <- Hc. split; [apply mapM_expose_id, Hold|].
    rewrite (mapM_expose_id _ Hall), Hcoll, fmap_app. cbn [fmap list_fmap].
    rewrite Hnew. reflexivity.
  - intros Hc limit Hrange Hroom. exists (external <$> collection st "journal").
    unfold list_journals.
    assert (Hb : negb ((1 <=? default 50 limit)%Z && (default 50 limit <=? 200)%Z) = false)
      by (apply negb_false_iff, andb_true_iff; split; apply Z.leb_le; apply Hrange).
    rewrite Hb, !get_documents_all. cbn [cap mbind result_bind].
    rewrite <- Hc in *. rewrite Hcoll.
    rewrite !take_ge by (rewrite ?length_app; cbn [length]; lia).
    rewrite <- Hcoll. split; [apply mapM_expose_id, Hold|].
    rewrite (mapM_expose_id _ Hall), Hcoll, fmap_app. cbn [fmap list_fmap].
    rewrite Hnew. reflexivity.
Qed.

Lemma listing_is_in_creation_order_witness :
  exists old,
    list_events None None two_events = Ok old
    /\ list_events None None
         (snd (handle (L := strict_mode)
                 (PostEvent (event "2024-05-01" "Labour Day")) two_events))
       = Ok (old ++ [<["id" := PStr (str_oid (next_oid two_events))]>
                       (model_dump {| CalendarEvent.date := "2024-05-01";
                                      CalendarEvent.title := "Labour Day";
                                      CalendarEvent.highlight := None;
                                      CalendarEvent.emoji := None |})]).
Proof.
  destruct (listing_is_in_creation_order (L := strict_mode)
              (PostEvent (event "2024-05-01" "Labour Day")) two_events
              (model_dump {| CalendarEvent.date := "2024-05-01";
                             CalendarEvent.title := "Labour Day";
                             CalendarEvent.highlight := None;
                             CalendarEvent.emoji := None |}))
    as (_ & Hlist & _); [reflexivity | reflexivity |].
  apply (Hlist "calendarevent" list_events); [member | reflexivity].
Defined.

Section Reads.

Lemma expose_id_keeps (x y : doc) k :
  expose_id x = Ok y -> k <> "id" -> k <> "_id" -> str_field k y = str_field k x.
Proof.
  unfold expose_id. destruct (x !! "_id") as [v|]; [|discriminate].
  destruct (py_str v) as [s|]; [|discriminate]. cbn. intros [= <-] Hid Hoid.
  unfold str_field. rewrite lookup_insert_ne, lookup_delete_ne by congruence.
  reflexivity.
Qed.

Lemma get_documents_sublist c filt lim st l :
  get_documents c filt lim st = Ok l -> l `sublist_of` collection st c.
Proof.
  unfold get_documents. destruct (mapM compile_item filt) as [cf|]; [|discriminate].
  cbn. intros [= <-].
  rewrite (List_filter_decide (satisfies cf) (fun x => satisfies cf x = true))
    by (intros x; reflexivity).
  transitivity (filter (fun x => satisfies cf x = true) (collection st c));
    [|apply sublist_filter].
  destruct lim as [n|]; cbn; [apply sublist_take | reflexivity].
Qed.

Lemma mapM_expose_id_sublist (l1 l2 k1 k2 : list doc) :
  l1 `sublist_of` l2 -> mapM expose_id l1 = Ok k1 -> mapM expose_id l2 = Ok k2 ->
  k1 `sublist_of` k2.
Proof.
  intros Hsub. revert k1 k2.
  induction Hsub as [|x l1 l2 _ IH|x l1 l2 _ IH]; intros k1 k2; cbn [mapM].
  - intros [= <-] [= <-]. constructor.
  - destruct (expose_id x) as [y|]; [|discriminate]. cbn.
    destruct (mapM expose_id l1) as [k1'|]; [|discriminate].
    destruct (mapM expose_id l2) as [k2'|]; [|discriminate].
    cbn. intros [= <-] [= <-]. constructor. apply IH; reflexivity.
  - intros H1. destruct (expose_id x) as [y|]; [|discriminate]. cbn.
    destruct (mapM expose_id l2) as [k2'|]; [|discriminate].
    cbn. intros [= <-]. constructor. apply IH; [exact H1 | reflexivity].
Qed.

Lemma dated_form coll h date month st :
  (coll, h) ∈ dated_listings ->
  exists filt, h date month st = get_documents coll filt None st ≫= mapM expose_id.
Proof.
  intros Hin. dated_cases Hin; eexists; reflexivity.
Qed.

End Reads.

(** X10: a read returns only records that match what was asked, whatever
    the store holds: a page returned by the page lookup has the journal and
    the date of the query, and every record listed under a non-empty exact
    date has that date. *)
Theorem reads_return_only_matches st :
  (forall j d p, get_page j d st = Ok p ->
     str_field "journal_id" p = Some j /\ str_field "date" p = Some d)
  /\ (forall coll h d month items,
        (coll, h) ∈ dated_listings -> d <> "" -> h (Some d) month st = Ok items ->
        Forall (fun x => str_field "date" x = Some d) items).
Proof.
  split.
  - intros j d p. rewrite get_page_first.
    destruct (filter _ _) as [|q l] eqn:E; [discriminate|].
    assert (Hq : q ∈ filter (fun x => str_field "journal_id" x = Some j
                                      /\ str_field "date" x = Some d)
                   (collection st "journalpage")) by (rewrite E; left).
    apply list_elem_of_filter in Hq as [[Hj Hd] _]. intros Hp.
    rewrite !(expose_id_keeps _ _ _ Hp) by discriminate. split; assumption.
  - intros coll h d month items Hin Hd.
    rewrite (dated_by_date _ _ _ _ _ Hin Hd). intros Hitems.
    apply mapM_expose_id_inv in Hitems.
    apply (Forall2_Forall_r _ _ _ _ Hitems). apply Forall_forall.
    intros x Hx y Hy. apply list_elem_of_filter in Hx as [Hx _].
    rewrite (expose_id_keeps _ _ _ Hy) by discriminate. exact Hx.
Qed.

Lemma reads_return_only_matches_witness :
  exists p, get_page "j1" "2024-05-01" two_pages = Ok p
            /\ str_field "journal_id" p = Some "j1"
            /\ str_field "date" p = Some "2024-05-01".
Proof.
  destruct (get_page "j1" "2024-05-01" two_pages) as [p|] eqn:Hp; [|discriminate Hp].
  exists p. split; [reflexivity|].
  destruct (reads_return_only_matches two_pages) as [Hpage _].
  apply (Hpage "j1" "2024-05-01" p Hp).
Defined.

(** X11: whatever date or month is given, what a dated listing returns is a
    subsequence of what the same listing returns with no filter: the same
    records, in the same order, with none added. *)
Theorem filtered_listing_is_a_sublist coll h date month st items all :
  (coll, h) ∈ dated_listings ->
  h date month st = Ok items -> h None None st = Ok all ->
  items `sublist_of` all.
Proof.
  intros Hin Hitems Hall.
  destruct (dated_form coll h date month st Hin) as [filt Hf].
  rewrite Hf in Hitems.
  rewrite (dated_unfiltered coll h None None st Hin eq_refl eq_refl) in Hall.
  destruct (get_documents coll filt None st) as [l|] eqn:E; [|discriminate].
  cbn in Hitems.
  apply (mapM_expose_id_sublist l (collection st coll) items all);
    [apply (get_documents_sublist _ _ _ _ _ E) | exact Hitems | exact Hall].
Qed.

Lemma filtered_listing_is_a_sublist_witness :
  exists items all,
    list_events None (Some "2024-04") two_events = Ok items
    /\ list_events None None two_events = Ok all
    /\ items `sublist_of` all.
Proof.
  destruct (list_events None (Some "2024-04") two_events) as [items|] eqn:Hi;
    [|discriminate Hi].
  destruct (list_events None None two_events) as [all|] eqn:Ha; [|discriminate Ha].
  exists items, all. split; [reflexivity|]. split; [reflexivity|].
  apply (filtered_listing_is_a_sublist "calendarevent" list_events
           None (Some "2024-04") two_events items all); [member | exact Hi | exact Ha].
Defined.

(** X12: the day aggregate is made of the same answers as the single reads.
    Over a well-formed store, for a non-empty date, its events, stickers and
    drawings are what the three listings return for that exact date, and for
    a non-empty journal its page is what the page lookup returns, or null
    where the page lookup answers 404. *)
Theorem get_day_agrees_with_reads (date : string) (jid : option string) st :
  well_stored st = true ->
  exists resp,
    get_day date jid st = Ok resp
    /\ (date <> "" -> forall month,
          exists events stickers drawings,
            list_events (Some date) month st = Ok events
            /\ list_stickers (Some date) month st = Ok stickers
            /\ list_drawings (Some date) month st = Ok drawings
            /\ resp !! "events" = Some (PList (PDict <$> events))
            /\ resp !! "stickers" = Some (PList (PDict <$> stickers))
            /\ resp !! "drawings" = Some (PList (PDict <$> drawings)))
    /\ (forall j, jid = Some j -> j <> "" ->
          resp !! "page" = Some match get_page j date st with
                                | Ok p => PDict p
                                | Raise _ => PNone
                                end).
Proof.
  intros Hst. exists (day_view date jid st).
  split; [apply get_day_value, Hst|]. split.
  - intros Hd month.
    exists (external <$> filter (fun x => str_field "date" x = Some date)
                           (collection st "calendarevent")),
      (external <$> filter (fun x => str_field "date" x = Some date)
                      (collection st "sticker")),
      (external <$> filter (fun x => str_field "date" x = Some date)
                      (collection st "drawing")).
    rewrite (dated_by_date "calendarevent" list_events date month st) by (member || exact Hd).
    rewrite (dated_by_date "sticker" list_stickers date month st) by (member || exact Hd).
    rewrite (dated_by_date "drawing" list_drawings date month st) by (member || exact Hd).
    repeat split; try reflexivity;
      apply mapM_expose_id, Forall_list_filter, well_stored_collection;
      solve [exact Hst | member].
  - intros j -> Hj.
    change (day_view date (Some j) st !! "page")
      with (Some (page_of_day date (Some j) st)).
    f_equal. unfold page_of_day. rewrite get_page_first.
    assert (Ht : truthy (Some j) = true)
      by (apply truthy_true; exists j; split; [reflexivity | exact Hj]).
    rewrite (list_filter_iff _
               (fun x => str_field "journal_id" x = Some j /\ str_field "date" x = Some date))
      by (intros x; rewrite Ht; tauto).
    assert (Hf := Forall_list_filter _
                    (fun x => str_field "journal_id" x = Some j /\ str_field "date" x = Some date)
                    _ (well_stored_collection st "journalpage" Hst ltac:(member))).
    destruct (filter _ _) as [|p l]; [reflexivity|].
    apply Forall_cons in Hf as [Hp _]. rewrite (expose_id_stored _ Hp). reflexivity.
Qed.

Lemma get_day_agrees_with_reads_witness :
  exists resp events,
    get_day "2024-05-01" None one_day = Ok resp
    /\ list_events (Some "2024-05-01") (Some "1999") one_day = Ok events
    /\ resp !! "events" = Some (PList (PDict <$> events)).
Proof.
  destruct (get_day_agrees_with_reads "2024-05-01" None one_day eq_refl)
    as (resp & Hresp & Hlists & _).
  destruct (Hlists ltac:(discriminate) (Some "1999"))
    as (events & _ & _ & Hevents & _ & _ & Hresp_events & _).
  exists resp, events. repeat split; assumption.
Defined.

(** X13: the journal given to the day aggregate decides the page only: for
    the same date and store, two aggregates agree on every other field. *)
Theorem journal_id_affects_only_the_page (date : string) (j j' : option string) st
    (resp resp' : doc) :
  well_stored st = true ->
  get_day date j st = Ok resp -> get_day date j' st = Ok resp' ->
  forall k, k <> "page" -> resp !! k = resp' !! k.
Proof.
  intros Hst. rewrite !(get_day_value _ _ _ Hst). intros [= <-] [= <-] k Hk.
  unfold day_view. rewrite !lookup_insert.
  repeat (case_decide; [reflexivity || congruence|]). reflexivity.
Qed.

Lemma journal_id_affects_only_the_page_witness :
  exists resp resp',
    get_day "2024-05-01" (Some "j1") two_pages = Ok resp
    /\ get_day "2024-05-01" (Some "j2") two_pages = Ok resp'
    /\ resp !! "events" = resp' !! "events".
Proof.
  destruct (get_day "2024-05-01" (Some "j1") two_pages) as [resp|] eqn:H1;
    [|discriminate H1].
  destruct (get_day "2024-05-01" (Some "j2") two_pages) as [resp'|] eqn:H2;
    [|discriminate H2].
  exists resp, resp'. split; [reflexivity|]. split; [reflexivity|].
  apply (journal_id_affects_only_the_page "2024-05-01" (Some "j1") (Some "j2")
           two_pages resp resp'); [reflexivity | exact H1 | exact H2 | discriminate].
Defined.

(** X14: every store that the POST routes can build from the empty store is
    well formed, so on such a store the reads do not fail: the day aggregate
    answers, the journal list answers for every limit within bounds, a
    listing by date or with no filter answers, and the page lookup answers a
    page or 404, never another error. *)
Theorem reads_succeed_after_posts `{L : LaxMode} (requests : list request) :
  let st := replay requests empty in
  well_stored st = true
  /\ (forall date jid, get_day date jid st = Ok (day_view date jid st))
  /\ (forall limit, (1 <= default 50 limit <= 200)%Z ->
        exists items, list_journals limit st = Ok items)
  /\ (forall coll h date, (coll, h) ∈ dated_listings ->
        exists items, h date None st = Ok items)
  /\ (forall j d, get_page j d st = Raise (HTTPException 404 "Page not found")
                  \/ exists p, get_page j d st = Ok p).
Proof.
  intros st.
  assert (Hst : well_stored st = true) by (apply replay_well_stored, well_stored_empty).
  split; [exact Hst|]. split; [|split; [|split]].
  - intros date jid. apply get_day_value, Hst.
  - intros limit Hrange. eexists. unfold list_journals.
    assert (Hb : negb ((1 <=? default 50 limit)%Z && (default 50 limit <=? 200)%Z) = false)
      by (apply negb_false_iff, andb_true_iff; split; apply Z.leb_le; apply Hrange).
    rewrite Hb, get_documents_all. cbn [cap mbind result_bind].
    apply mapM_expose_id, Forall_take, well_stored_collection; [exact Hst | member].
  - intros coll h date Hin.
    assert (Hc : coll ∈ collection_names) by (dated_cases Hin; member).
    destruct (truthy date) eqn:Hd.
    + apply truthy_true in Hd as (d & -> & Hd). eexists.
      rewrite (dated_by_date _ _ _ _ _ Hin Hd).
      apply mapM_expose_id, Forall_list_filter, well_stored_collection; assumption.
    + eexists. rewrite (dated_unfiltered coll h date None st Hin Hd eq_refl).
      apply mapM_expose_id, well_stored_collection; assumption.
  - intros j d. rewrite get_page_first.
    assert (Hf := Forall_list_filter _
                    (fun x => str_field "journal_id" x = Some j /\ str_field "date" x = Some d)
                    _ (well_stored_collection st "journalpage" Hst ltac:(member))).
    destruct (filter _ _) as [|p l]; [left; reflexivity|].
    right. apply Forall_cons in Hf as [Hp _]. eexists. apply expose_id_stored, Hp.
Qed.

Lemma reads_succeed_after_posts_witness :
  exists items,
    list_journals None
      (replay (L := strict_mode)
         [PostJournal (PDict {[ "title" := PStr "A" ]});
          PostEvent (event "2024-05-01" "Labour Day");
          PostJournal (PInt 3)] empty) = Ok items.
Proof.
  destruct (reads_succeed_after_posts (L := strict_mode)
              [PostJournal (PDict {[ "title" := PStr "A" ]});
               PostEvent (event "2024-05-01" "Labour Day");
               PostJournal (PInt 3)]) as (_ & _ & Hjournals & _).
  apply (Hjournals None). cbn. lia.
Defined.

(** ** Months in the documented format *)

Section Months.

Lemma digit_or_hyphen_not_meta (c : ascii) :
  ((48 <=? N_of_ascii c)%N && (N_of_ascii c <=? 57)%N) || Ascii.eqb c "-" = true ->
  Regex.is_meta c = false.
Proof.
  destruct c as [[] [] [] [] [] [] [] []]; vm_compute; congruence.
Qed.

Lemma digits_and_hyphens_plain (m : string) :
  digits_and_hyphens m = true -> plain m = true.
Proof.
  unfold digits_and_hyphens, plain.
  induction (list_ascii_of_string m) as [|c l IH]; [reflexivity|].
  cbn [forallb]. rewrite !andb_true_iff. intros [Hc Hl].
  split; [|apply IH, Hl]. rewrite (digit_or_hyphen_not_meta c Hc). reflexivity.
Qed.

End Months.

(** X15: a month without regular expression metacharacters, in particular
    one written with digits and hyphens as the documented YYYY-MM, selects
    by literal prefix. Over a well-formed store, with no date given, the
    listing returns exactly the records whose date starts with the month, in
    storage order and in external form. *)
Theorem plain_month_selects_by_prefix coll h (date : option string) (m : string) st :
  (coll, h) ∈ dated_listings -> well_stored st = true ->
  truthy date = false -> m <> "" ->
  plain m = true \/ digits_and_hyphens m = true ->
  h date (Some m) st =
  Ok (external
        <$> filter (fun x => from_option (String.prefix m) false (str_field "date" x) = true)
              (collection st coll)).
Proof.
  intros Hin Hst Hdate Hm Hplain.
  assert (Hp : plain m = true)
    by (destruct Hplain as [Hp|Hd]; [exact Hp | apply digits_and_hyphens_plain, Hd]).
  rewrite (plain_month_is_prefix coll h date m st Hin Hdate Hm Hp).
  apply mapM_expose_id, Forall_list_filter, well_stored_collection; [exact Hst|].
  dated_cases Hin; member.
Qed.

Lemma plain_month_selects_by_prefix_witness :
  fmap (M := list) (str_field "date") <$> list_events None (Some "2024-03") two_events
  = Ok [Some "2024-03-05"].
Proof.
  rewrite (plain_month_selects_by_prefix "calendarevent" list_events None "2024-03"
             two_events);
    [vm_compute; reflexivity | member | reflexivity | reflexivity | discriminate
    | right; reflexivity].
Defined.

(** ** The health check *)

Section HealthCheck.

Lemma prefix_empty (s : string) : String.prefix "" s = true.
Proof. destruct s; reflexivity. Qed.

Lemma prefix_append (a b c : string) :
  String.prefix (a ++ b)%string (a ++ c)%string = String.prefix b c.
Proof.
  induction a as [|x a IH]; [reflexivity|].
  change (String.prefix (String x (a ++ b)%string) (String x (a ++ c)%string)
          = String.prefix b c).
  cbn [String.prefix].
  destruct (Ascii.ascii_dec x x) as [_|Hne]; [exact IH | destruct (Hne eq_refl)].
Qed.

Lemma substring_drop (m : nat) (s : string) :
  (substring 0 m s ++ Regex.drop m s)%string = s.
Proof.
  revert s. induction m as [|m IH]; intros s; destruct s as [|c s]; try reflexivity.
  change (String c (substring 0 m s ++ Regex.drop m s)%string = String c s).
  f_equal. apply IH.
Qed.

Lemma length_append (a b : string) :
  String.length (a ++ b)%string = String.length a + String.length b.
Proof.
  induction a as [|x a IH]; [reflexivity|].
  change (S (String.length (a ++ b)%string) = S (String.length a) + String.length b).
  rewrite IH. reflexivity.
Qed.

Lemma length_substring (m : nat) (s : string) : String.length (substring 0 m s) <= m.
Proof.
  revert s. induction m as [|m IH]; intros s; destruct s as [|c s]; cbn; try lia.
  specialize (IH s). lia.
Qed.

Lemma continuation_bytes_bound (c : ascii) : Regex.continuation_bytes c <= 3.
Proof. unfold Regex.continuation_bytes. repeat case_match; lia. Qed.

Lemma py_take_prefix (n : nat) (s : string) :
  String.prefix (Health.py_take n s) s = true.
Proof.
  revert s. induction n as [|n IH]; intros s; [apply prefix_empty|].
  destruct s as [|c s]; [reflexivity|].
  cbn [Health.py_take String.prefix].
  destruct (Ascii.ascii_dec c c) as [_|Hne]; [|destruct (Hne eq_refl)].
  rewrite <- (substring_drop (Regex.continuation_bytes c) s) at 3.
  rewrite prefix_append. apply IH.
Qed.

Lemma py_take_length (n : nat) (s : string) :
  String.length (Health.py_take n s) <= 4 * n.
Proof.
  revert s. induction n as [|n IH]; intros s; [cbn; lia|].
  destruct s as [|c s]; [cbn; lia|].
  cbn [Health.py_take String.length]. rewrite length_append.
  pose proof (length_substring (Regex.continuation_bytes c) s).
  pose proof (continuation_bytes_bound c).
  specialize (IH (Regex.drop (Regex.continuation_bytes c) s)). lia.
Qed.

Lemma py_len_append (a b : string) : py_len (a ++ b)%string = py_len a + py_len b.
Proof.
  induction a as [|x a IH]; [reflexivity|].
  change (py_len (String x (a ++ b)%string) = py_len (String x a) + py_len b).
  cbn [py_len]. rewrite IH. lia.
Qed.

Lemma pending_bytes (m : nat) (s : string) :
  utf8_from m s = true ->
  py_len (substring 0 m s) = 0
  /\ utf8_from 0 (Regex.drop m s) = true
  /\ py_len (Regex.drop m s) = py_len s.
Proof.
  revert s. induction m as [|m IH]; intros s.
  - intros Hs. destruct s; repeat split; assumption.
  - destruct s as [|c s]; [discriminate|]. cbn [utf8_from].
    intros [Hc Hs]%andb_true_iff. destruct (IH s Hs) as (Hsub & Hdrop & Hlen).
    cbn [substring Regex.drop py_len]. rewrite Hc, Hsub, Hlen. repeat split.
    exact Hdrop.
Qed.

Lemma pending_append (m : nat) (s t : string) :
  utf8_from m s = true -> utf8_from 0 t = true ->
  utf8_from m (substring 0 m s ++ t)%string = true.
Proof.
  revert s. induction m as [|m IH]; intros s Hs Ht.
  - destruct s; exact Ht.
  - destruct s as [|c s]; [discriminate|]. cbn [utf8_from] in Hs.
    apply andb_true_iff in Hs as [Hc Hs].
    change (utf8_from (S m) (String c (substring 0 m s ++ t)%string) = true).
    cbn [utf8_from]. rewrite Hc. apply (IH s Hs Ht).
Qed.

Lemma py_take_chars (n : nat) (s : string) :
  utf8 s = true ->
  utf8 (Health.py_take n s) = true
  /\ py_len (Health.py_take n s) = Nat.min n (py_len s).
Proof.
  unfold utf8. revert s. induction n as [|n IH]; intros s Hs.
  - split; reflexivity.
  - destruct s as [|c s]; [split; reflexivity|].
    cbn [utf8_from] in Hs. apply andb_true_iff in Hs as [Hc Hs].
    destruct (pending_bytes _ _ Hs) as (Hsub & Hdrop & Hlen).
    destruct (IH _ Hdrop) as [IHv IHl].
    cbn [Health.py_take]. split.
    + cbn [utf8_from]. rewrite Hc. apply (pending_append _ _ _ Hs IHv).
    + cbn [py_len]. apply negb_true_iff in Hc. rewrite Hc.
      rewrite py_len_append, Hsub, IHl, Hlen. lia.
Qed.

End HealthCheck.

(** X16: the health check answers whatever the state of the database. It
    says "Connected" exactly when there is a database handle; it never shows
    more than ten collections, and shows the first ten that the database
    lists; and when listing the collections fails it still answers, with no
    collection, the status "Connected", and as its database text the fixed
    warning followed by the first 50 characters of the error text: a prefix
    of that text which, when the text is UTF-8, ends at a character boundary
    and has 50 characters, or all of them when the text has fewer (so at
    most 200 bytes). *)
Theorem health_check_degrades (db : option Health.database) (url : option string) :
  let resp := Health.test_database db url in
  (resp !! "connection_status" = Some (PStr "Connected") <-> db <> None)
  /\ (exists shown, resp !! "collections" = Some (PList (PStr <$> shown))
                    /\ length shown <= 10)
  /\ (forall d names, db = Some d -> Health.list_collection_names d = Health.Names names ->
        resp !! "collections" = Some (PList (PStr <$> take 10 names))
        /\ resp !! "database" = Some (PStr "✅ Connected & Working"))
  /\ (forall d message, db = Some d ->
        Health.list_collection_names d = Health.Fails message ->
        resp !! "collections" = Some (PList [])
        /\ resp !! "connection_status" = Some (PStr "Connected")
        /\ exists text,
             resp !! "database" = Some (PStr ("⚠️ Connected but Error: " ++ text)%string)
             /\ String.prefix text message = true
             /\ String.length text <= 200
             /\ (utf8 message = true ->
                 utf8 text = true /\ py_len text = Nat.min 50 (py_len message))).
Proof.
  intros resp. unfold resp, Health.test_database.
  split; [|split; [|split]].
  - destruct db as [d|].
    + split; [discriminate|]. intros _.
      destruct (Health.list_collection_names d); reflexivity.
    + split; [intros H; vm_compute in H; discriminate H | congruence].
  - destruct db as [d|]; [|exists []; split; [reflexivity | cbn; lia]].
    destruct (Health.list_collection_names d) as [names|message].
    + exists (take 10 names). split; [reflexivity|]. rewrite length_take. lia.
    + exists []. split; [reflexivity | cbn; lia].
  - intros d names -> Hnames. rewrite Hnames. split; reflexivity.
  - intros d message -> Hfails. rewrite Hfails.
    split; [reflexivity|]. split; [reflexivity|].
    exists (Health.py_take 50 message).
    split; [reflexivity|]. split; [apply py_take_prefix|]. split.
    + pose proof (py_take_length 50 message). lia.
    + apply py_take_chars.
Qed.

Lemma health_check_degrades_witness :
  exists text,
    Health.test_database
      (Some {| Health.name := Some "notes";
               Health.list_collection_names :=
                 Health.Fails "délai dépassé : le serveur à l'adresse donnée ne répond pas" |})
      None
    !! "database" = Some (PStr ("⚠️ Connected but Error: " ++ text)%string)
    /\ py_len text = 50
    /\ Health.test_database None None !! "connection_status" = Some (PStr "Not Connected").
Proof.
  destruct (health_check_degrades
              (Some {| Health.name := Some "notes";
                       Health.list_collection_names :=
                         Health.Fails "délai dépassé : le serveur à l'adresse donnée ne répond pas" |})
              None)
    as (_ & _ & _ & Hfails).
  destruct (Hfails _ _ eq_refl eq_refl) as (_ & _ & text & Hdb & _ & _ & Hchars).
  exists text. split; [exact Hdb|].
  destruct (Hchars eq_refl) as [_ ->]. split; reflexivity.
Defined.

(** ** The points of a drawing *)

Section Points.

Context `{L : LaxMode}.

Lemma at_loc_reports {A : Type} (it : loc_item) (e : verr) (c : checked A) :
  reports e c -> reports (it :: fst e, snd e) (at_loc it c).
Proof.
  intros (errs & -> & He). eexists. split; [reflexivity|].
  apply list_elem_of_In.
  apply (in_map (fun e0 : verr => (it :: fst e0, snd e0))).
  apply list_elem_of_In, He.
Qed.

Lemma validate_points_reports (i0 : nat) (l : list pyval) (i : nat) (v : pyval)
    (e : verr) :
  l !! i = Some v -> reports e (StrokePoint.validate v) ->
  reports (Index (i0 + i) :: fst e, snd e) (validate_points i0 l).
Proof.
  revert i0 i. induction l as [|w l IH]; intros i0 i Hi He; [discriminate Hi|].
  cbn [validate_points]. destruct i as [|i].
  - injection Hi as ->. rewrite Nat.add_0_r.
    apply reports_ap_l, reports_ap_r, at_loc_reports, He.
  - apply reports_ap_r. replace (i0 + S i) with (S i0 + i) by lia.
    apply IH; assumption.
Qed.

Lemma drawing_reports_point (d : doc) (l : list pyval) (e : verr) :
  d !! "points" = Some (PList l) ->
  reports e (validate_points 0 l) ->
  reports (Key "points" :: fst e, snd e) (Drawing.validate (PDict d)).
Proof.
  intros Hl He. unfold Drawing.validate.
  apply reports_ap_r. unfold defaulted. rewrite Hl.
  apply (at_loc_reports (Key "points") e (validate_points 0 l) He).
Qed.

Lemma validate_points_length (i : nat) (l : list pyval) (qs : list StrokePoint.t) :
  validate_points i l = Valid qs -> length qs = length l.
Proof.
  revert i qs. induction l as [|v l IH]; intros i qs; cbn [validate_points].
  - intros [= <-]. reflexivity.
  - intros Hv. valid_fields Hv. cbn [length]. f_equal. apply (IH (S i)). assumption.
Qed.

End Points.

(** X17: the points of a drawing are validated one by one. A point that is
    not an object, or that lacks [x] or [y], makes validation of the drawing
    fail, whatever lax mode converts: a list of violations comes back, and
    the violation of the point is in it, located by the index of the point
    in the list; a drawing that is accepted keeps as many points as the body
    gave. *)
Theorem drawing_points_are_validated_one_by_one `{L : LaxMode}
    (d : doc) (l : list pyval) :
  d !! "points" = Some (PList l) ->
  (forall i q k, l !! i = Some (PDict q) -> k ∈ ["x"; "y"] -> q !! k = None ->
     reports ([Key "points"; Index i; Key k], Missing) (Drawing.validate (PDict d)))
  /\ (forall i v, l !! i = Some v -> (forall q, v <> PDict q) ->
      reports ([Key "points"; Index i], WrongType) (Drawing.validate (PDict d)))
  /\ (forall g, Drawing.validate (PDict d) = Valid g ->
      length (Drawing.points g) = length l).
Proof.
  intros Hl. split; [|split].
  - intros i q k Hi Hk Hq.
    assert (Hpoint : reports ([Key k], Missing) (StrokePoint.validate (PDict q))).
    { pose proof (required_missing q k as_float Hq) as Hr.
      unfold StrokePoint.validate. in_cases Hk; at_field Hr. }
    apply (drawing_reports_point d l ([Index i; Key k], Missing) Hl).
    apply (validate_points_reports 0 l i _ ([Key k], Missing) Hi Hpoint).
  - intros i v Hi Hv.
    assert (Hpoint : reports ([], WrongType) (StrokePoint.validate v)).
    { destruct v; cbn; try (eexists; split; [reflexivity | left]).
      destruct (Hv d0 eq_refl). }
    apply (drawing_reports_point d l ([Index i], WrongType) Hl).
    apply (validate_points_reports 0 l i _ ([], WrongType) Hi Hpoint).
  - intros g Hg. unfold Drawing.validate in Hg. valid_fields Hg.
    match goal with
    | Hp : defaulted _ "points" _ _ = Valid _ |- _ =>
        unfold defaulted in Hp; rewrite Hl in Hp; cbn [as_points] in Hp;
        cbn [Drawing.points]; apply at_loc_valid in Hp;
        apply (validate_points_length 0 l _ Hp)
    end.
Qed.

Lemma drawing_points_are_validated_one_by_one_witness :
  reports ([Key "points"; Index 1; Key "y"], Missing)
    (Drawing.validate (L := strict_mode)
       (drawing "2024-05-01" [point 0 0; PDict {[ "x" := PInt 1 ]}])).
Proof.
  destruct (drawing_points_are_validated_one_by_one (L := strict_mode)
              {[ "date" := PStr "2024-05-01";
                 "points" := PList [point 0 0; PDict {[ "x" := PInt 1 ]}] ]}
              [point 0 0; PDict {[ "x" := PInt 1 ]}]) as (Hmissing & _).
  - reflexivity.
  - apply (Hmissing 1 {[ "x" := PInt 1 ]} "y"); [reflexivity | member | reflexivity].
Defined.
